(** * Session-defaults resolver and gateway reconnect guard of the OpenClaw UI

    A shallow embedding of [ui/src/ui/session-defaults.ts]
    ([resolveSnapshotMainSessionKey], [isMainSessionAlias]) and of the
    reconnect orchestrator exercised by [ui/src/ui/app-gateway.node.test.ts].

    JavaScript strings are sequences of code units.  They are embedded as
    [string], one [ascii] per code unit, which covers the code units
    U+0000..U+00FF; on that range [trim] and [toLowerCase] below are the
    ECMAScript built-ins.  JavaScript numbers that reach this code (sequence
    numbers, close codes) are integers and are embedded as [Z].

    The file also embeds the pure parts of the msgvault plugin
    ([extensions/msgvault/index.ts]), of the domain-search tool
    ([extensions/domain-search]) and of the msgvault compatibility server
    ([scripts/msgvault/http-compat-server.mjs]); there a value of type
    [unknown] is a [JsValue] and a finite number is a rational. *)

From Stdlib Require Import Bool Arith ZArith Lia List.
From Stdlib Require Import Strings.Ascii Strings.String Numbers.DecimalString.
From Stdlib Require QArith Qround.
Import ListNotations.

Open Scope string_scope.

(* ================================================================= *)
(** ** JavaScript values and built-ins used by the code *)

(** A value that may be [null], [undefined] or an object. *)
Inductive nullable (A : Type) : Type :=
| Null : nullable A
| Undefined : nullable A
| Present : A -> nullable A.

Arguments Null {A}.
Arguments Undefined {A}.
Arguments Present {A} _.

(** Outcome of evaluating a function body: a returned value, or a
    [TypeError] thrown by reading a property of [null] or [undefined]. *)
Inductive completion (A : Type) : Type :=
| Normal : A -> completion A
| ThrowTypeError : completion A.

Arguments Normal {A} _.
Arguments ThrowTypeError {A}.

Definition bind {A B : Type} (c : completion A) (k : A -> completion B)
  : completion B :=
  match c with
  | Normal a => k a
  | ThrowTypeError => ThrowTypeError
  end.

Notation "x <- c ;; k" := (bind c (fun x => k))
  (at level 61, c at next level, right associativity).

(** [o.f]: throws when [o] is [null] or [undefined]. *)
Definition member {A B : Type} (f : A -> B) (o : nullable A) : completion B :=
  match o with
  | Present a => Normal (f a)
  | Null | Undefined => ThrowTypeError
  end.

(** [o?.f] on an optional field: [undefined] when [o] is nullish. *)
Definition optMember {A B : Type} (f : A -> option B) (o : nullable A)
  : option B :=
  match o with
  | Present a => f a
  | Null | Undefined => None
  end.

(** [!o] for an object-or-nullish value. *)
Definition falsyObject {A : Type} (o : nullable A) : bool :=
  match o with
  | Present _ => false
  | Null | Undefined => true
  end.

(** [!s] for a string that may be absent: the empty string is falsy. *)
Definition falsyString (s : option string) : bool :=
  match s with
  | Some (String _ _) => false
  | Some EmptyString | None => true
  end.

(** [s ?? d]. *)
Definition nullish (s : option string) (d : string) : string :=
  match s with
  | Some v => v
  | None => d
  end.

(** ECMAScript WhiteSpace and LineTerminator code units below U+0100:
    TAB, LF, VT, FF, CR, SPACE and NO-BREAK SPACE. *)
Definition isWhiteSpace (c : ascii) : bool :=
  let n := nat_of_ascii c in
  (((9 <=? n) && (n <=? 13)) || (n =? 32) || (n =? 160))%nat.

(** Lower-case mapping of one code unit: A..Z and the Latin-1 capitals
    U+00C0..U+00DE (the multiplication sign U+00D7 apart) move up by 32. *)
Definition toLowerCaseUnit (c : ascii) : ascii :=
  let n := nat_of_ascii c in
  if (((65 <=? n) && (n <=? 90))
      || ((192 <=? n) && (n <=? 222) && negb (n =? 215)))%nat
  then ascii_of_nat (n + 32)
  else c.

(** [String.prototype.toLowerCase]. *)
Fixpoint toLowerCase (s : string) : string :=
  match s with
  | EmptyString => EmptyString
  | String c rest => String (toLowerCaseUnit c) (toLowerCase rest)
  end.

(** [String.prototype.trimStart]. *)
Fixpoint trimStart (s : string) : string :=
  match s with
  | EmptyString => EmptyString
  | String c rest => if isWhiteSpace c then trimStart rest else s
  end.

(** [String.prototype.trimEnd]. *)
Fixpoint trimEnd (s : string) : string :=
  match s with
  | EmptyString => EmptyString
  | String c rest =>
      match trimEnd rest with
      | EmptyString => if isWhiteSpace c then EmptyString
                       else String c EmptyString
      | String _ _ as kept => String c kept
      end
  end.

(** [String.prototype.trim]. *)
Definition trim (s : string) : string := trimEnd (trimStart s).

(** Two strings that are equal up to letter case; the alias test is
    specified in these terms. *)
Definition sameIgnoringCase (s t : string) : bool :=
  toLowerCase s =? toLowerCase t.

(** [Number::toString] on an integer value. *)
Definition numberToString (n : Z) : string :=
  NilZero.string_of_int (Z.to_int n).

(* ================================================================= *)
(** ** Sample normalisers *)

(** Modelled from the spec: [normalizeMainKey] of [src/routing/session-key.js]
    is imported by the resolver but its source is missing.  The spec gives
    its contract: a non-empty canonical key, which defaults to ["main"] when
    the raw value is absent or blank.  Canonical is read as trimmed and
    lower-cased.  The resolver is verified for every normaliser; this one
    only instantiates the theorems on concrete inputs. *)
Definition sampleNormalizeMainKey (raw : option string) : string :=
  match trim (nullish raw "") with
  | EmptyString => "main"
  | String _ _ as trimmed => toLowerCase trimmed
  end.

(** Modelled from the spec: [normalizeAgentId] of [src/routing/session-key.js]
    is missing as well.  Its contract in the spec: a non-empty canonical
    identifier, with a default applied when the raw value is absent or
    blank; the default is taken to be ["main"] here. *)
Definition sampleNormalizeAgentId (raw : option string) : string :=
  match trim (nullish raw "") with
  | EmptyString => "main"
  | String _ _ as trimmed => toLowerCase trimmed
  end.

(* ================================================================= *)
(** ** The resolver: [session-defaults.ts] *)

Record SessionDefaultsSnapshot : Type := {
  defaultAgentId : option string;
  mainKey : option string;
  mainSessionKey : option string;
  scope : option string
}.

Definition normalizeScope (scope : option string) : string :=
  toLowerCase (trim (nullish scope "")).

(** The snapshots of [session-defaults.node.test.ts]. *)
Definition derivedDefaults : SessionDefaultsSnapshot :=
  {| defaultAgentId := Some "denver-move";
     mainKey := Some "heartbeat";
     mainSessionKey := None;
     scope := None |}.

Definition explicitDefaults : SessionDefaultsSnapshot :=
  {| defaultAgentId := Some "denver-move";
     mainKey := Some "heartbeat";
     mainSessionKey := Some "agent:denver-move:main-chat";
     scope := None |}.

Definition globalDefaults : SessionDefaultsSnapshot :=
  {| defaultAgentId := Some "denver-move";
     mainKey := Some "heartbeat";
     mainSessionKey := None;
     scope := Some "global" |}.

(** An explicit key sent with surrounding blanks. *)
Definition paddedDefaults : SessionDefaultsSnapshot :=
  {| defaultAgentId := Some "denver-move";
     mainKey := Some "heartbeat";
     mainSessionKey := Some " agent:denver-move:main-chat ";
     scope := Some "global" |}.

(* ================================================================= *)
(** ** Untyped values: what [unknown] parameters may hold *)

(** A JavaScript number: a finite value (every finite double is a
    rational), [NaN], or an infinity. *)
Inductive JsNumber : Type :=
| Finite (q : QArith_base.Q)
| NaN
| Infinite (positive : bool).

#[local] Set Warnings "-register-all".

(** A JavaScript value as the plugins inspect it with [typeof],
    [Array.isArray] and property reads. *)
Inductive JsValue : Type :=
| VUndefined
| VNull
| VBoolean (b : bool)
| VNumber (n : JsNumber)
| VString (s : string)
| VArray (items : list JsValue)
| VObject (fields : list (string * JsValue)).

(** [typeof v === "string"], with the string. *)
Definition stringValue (v : JsValue) : option string :=
  match v with
  | VString s => Some s
  | _ => None
  end.

(** [typeof v === "number" && Number.isFinite(v)], with the number. *)
Definition finiteNumber (v : JsValue) : option QArith_base.Q :=
  match v with
  | VNumber (Finite q) => Some q
  | _ => None
  end.

(** [typeof v === "boolean"], with the boolean. *)
Definition booleanValue (v : JsValue) : option bool :=
  match v with
  | VBoolean b => Some b
  | _ => None
  end.

(** [record[key]] on a [Record<string, unknown>]: the first field of that
    name, [undefined] when there is none. *)
Fixpoint lookupField (fields : list (string * JsValue)) (key : string)
  : JsValue :=
  match fields with
  | [] => VUndefined
  | (name, v) :: rest => if name =? key then v else lookupField rest key
  end.

(** [Math.round]: the nearest integer, a tie going towards plus infinity. *)
Definition mathRound (q : QArith_base.Q) : Z :=
  Qround.Qfloor (QArith_base.Qplus q (QArith_base.Qmake 1 2)).

(** [Math.floor]. *)
Definition mathFloor (q : QArith_base.Q) : Z := Qround.Qfloor q.

(** The end of a string without its final run of units satisfying [drop]:
    [s.replace(/X+$/, "")] for a one-unit class [X]. *)
Fixpoint dropTrailing (drop : ascii -> bool) (s : string) : string :=
  match s with
  | EmptyString => EmptyString
  | String c rest =>
      match dropTrailing drop rest with
      | EmptyString => if drop c then EmptyString else String c EmptyString
      | String _ _ as kept => String c kept
      end
  end.

(** Whether some code unit of a string satisfies [p]. *)
Fixpoint anyUnit (p : ascii -> bool) (s : string) : bool :=
  match s with
  | EmptyString => false
  | String c rest => p c || anyUnit p rest
  end.

(** The last code unit of a string. *)
Fixpoint lastUnit (s : string) : option ascii :=
  match s with
  | EmptyString => None
  | String c EmptyString => Some c
  | String _ rest => lastUnit rest
  end.

(* ================================================================= *)
(** ** The msgvault plugin: [extensions/msgvault/index.ts] *)

Definition DEFAULT_BASE_URL : string := "http://127.0.0.1:8080".
Definition DEFAULT_API_KEY_ENV : string := "MSGVAULT_API_KEY".
Definition DEFAULT_TIMEOUT_MS : Z := 10000.
Definition MIN_TIMEOUT_MS : Z := 500.
Definition MAX_TIMEOUT_MS : Z := 120000.
Definition MAX_REQUEST_ATTEMPTS : Z := 3.
Definition BASE_RETRY_DELAY_MS : Z := 200.
Definition MAX_RETRY_DELAY_MS : Z := 2000.

Definition clampTimeoutMs (value : JsValue) : Z :=
  match finiteNumber value with
  | None => DEFAULT_TIMEOUT_MS
  | Some number =>
      Z.min MAX_TIMEOUT_MS (Z.max MIN_TIMEOUT_MS (mathRound number))
  end.

Definition isSlash (c : ascii) : bool := (c =? "/")%char.

Definition normalizeBaseUrl (value : JsValue) : string :=
  match stringValue value with
  | None => DEFAULT_BASE_URL
  | Some text =>
      if falsyString (Some (trim text)) then DEFAULT_BASE_URL
      else dropTrailing isSlash (trim text)
  end.

Definition normalizeAccount (value : JsValue) : option string :=
  match stringValue value with
  | None => None
  | Some text =>
      let trimmed := trim text in
      if falsyString (Some trimmed) then None else Some trimmed
  end.

(** [fallback] and [max] are the integer literals of the callers. *)
Definition normalizePositiveInt (value : JsValue) (fallback max : Z) : Z :=
  match finiteNumber value with
  | None => fallback
  | Some number =>
      let rounded := mathFloor number in
      if (rounded <? 1)%Z then fallback else Z.min max rounded
  end.

(** The configuration [resolveConfig] returns. *)
Record MsgvaultConfig : Type := {
  baseUrl : string;
  apiKeyEnv : string;
  timeoutMs : Z;
  allowSync : bool;
  defaultAccount : option string
}.

Definition resolveConfig (raw : JsValue) : MsgvaultConfig :=
  let cfg :=
    match raw with
    | VObject fields => fields
    | _ => []
    end in
  let apiKeyEnv :=
    match stringValue (lookupField cfg "apiKeyEnv") with
    | Some name =>
        if falsyString (Some (trim name)) then DEFAULT_API_KEY_ENV
        else trim name
    | None => DEFAULT_API_KEY_ENV
    end in
  let defaultAccount := normalizeAccount (lookupField cfg "defaultAccount") in
  {| baseUrl := normalizeBaseUrl (lookupField cfg "baseUrl");
     apiKeyEnv := apiKeyEnv;
     timeoutMs := clampTimeoutMs (lookupField cfg "timeoutMs");
     allowSync :=
       match lookupField cfg "allowSync" with
       | VBoolean true => true
       | _ => false
       end;
     defaultAccount := defaultAccount |}.

(** [!!v]: JavaScript truthiness. *)
Definition truthy (v : JsValue) : bool :=
  match v with
  | VUndefined | VNull => false
  | VBoolean b => b
  | VNumber (Finite q) => negb (QArith_base.Qnum q =? 0)%Z
  | VNumber NaN => false
  | VNumber (Infinite _) => true
  | VString s => negb (falsyString (Some s))
  | VArray _ | VObject _ => true
  end.

(** [typeof v === "object"]: objects, arrays and [null]. *)
Definition typeofObject (v : JsValue) : bool :=
  match v with
  | VNull | VArray _ | VObject _ => true
  | _ => false
  end.

(** [(v as Record<string, unknown>)[key]]: a field of an object,
    [undefined] on anything else the code reads it from. *)
Definition getProperty (v : JsValue) (key : string) : JsValue :=
  match v with
  | VObject fields => lookupField fields key
  | _ => VUndefined
  end.

(** [String.prototype.includes]. *)
Fixpoint includes (s needle : string) : bool :=
  String.prefix needle s
  || match s with
     | EmptyString => false
     | String _ rest => includes rest needle
     end.

Definition extractErrorMessage (payload : JsValue) : option string :=
  if negb (truthy payload) || negb (typeofObject payload) then None
  else
    let trimmedText (v : JsValue) : option string :=
      match stringValue v with
      | Some text => if falsyString (Some (trim text)) then None
                     else Some (trim text)
      | None => None
      end in
    match trimmedText (getProperty payload "message") with
    | Some msg => Some msg
    | None => trimmedText (getProperty payload "error")
    end.

(** The platform functions [parseRetryAfterMs] relies on:
    [Number.parseInt(s, 10)] when its result is finite, and [Date.parse(s)]
    when its result is not [NaN]. *)
Record Platform : Type := {
  parseInt10 : string -> option Z;
  dateParse : string -> option Z
}.

(** [now] is what [Date.now()] returns during the call.  The product
    [seconds * 1_000] is the exact one. *)
Definition parseRetryAfterMs (platform : Platform) (now : Z)
    (value : option string) : option Z :=
  if falsyString value then None
  else
    let trimmed := trim (nullish value "") in
    if falsyString (Some trimmed) then None
    else
      match parseInt10 platform trimmed with
      | Some seconds =>
          if (0 <=? seconds)%Z then Some (seconds * 1000)%Z
          else
            match dateParse platform trimmed with
            | Some absoluteMs => Some (Z.max 0 (absoluteMs - now))
            | None => None
            end
      | None =>
          match dateParse platform trimmed with
          | Some absoluteMs => Some (Z.max 0 (absoluteMs - now))
          | None => None
          end
      end.

Definition computeRetryDelayMs (platform : Platform) (now : Z)
    (retryAfter : option string) (attempt : Z) : Z :=
  match parseRetryAfterMs platform now retryAfter with
  | Some fromHeader => Z.min MAX_RETRY_DELAY_MS fromHeader
  | None =>
      let backoff := (BASE_RETRY_DELAY_MS * 2 ^ Z.max 0 (attempt - 1))%Z in
      Z.min MAX_RETRY_DELAY_MS backoff
  end.

Definition isRetryableStatus (status : Z) : bool :=
  ((status =? 408) || (status =? 429) || (500 <=? status))%Z.

(** What a rejected [fetch] throws: an [Error] with its message, or another
    value with its rendering by [String(err)]. *)
Inductive Thrown : Type :=
| ThrownError (message : string)
| ThrownOther (rendered : string).

Definition isRetryableTransportError (err : Thrown) : bool :=
  match err with
  | ThrownOther _ => false
  | ThrownError message =>
      let msg := toLowerCase message in
      includes msg "timeout"
      || includes msg "aborted"
      || includes msg "fetch failed"
      || includes msg "network"
      || includes msg "socket"
      || includes msg "econnrefused"
      || includes msg "econnreset"
  end.

(** The message of the [Error] that [buildToolError] returns. *)
Definition buildToolError (status : Z) (payload : JsValue)
    (contextApiKeyEnv : string) (contextRetryAfter : option string)
  : string :=
  let detail := extractErrorMessage payload in
  let detailOr (generic : string) : string :=
    if falsyString detail then generic else nullish detail "" in
  if (status =? 401)%Z then
    let suffix :=
      if falsyString detail then "" else " (" ++ nullish detail "" ++ ")" in
    "msgvault authentication failed (401). Set " ++ contextApiKeyEnv
      ++ " to a valid msgvault API key." ++ suffix
  else if (status =? 404)%Z then
    detailOr "msgvault resource not found (404)."
  else if (status =? 409)%Z then
    detailOr "msgvault conflict (409): sync likely already in progress."
  else if (status =? 429)%Z then
    let retryMsg :=
      if falsyString contextRetryAfter then ""
      else " Retry-After: " ++ nullish contextRetryAfter "" ++ "s." in
    detailOr ("msgvault rate limited request (429). Retry shortly."
              ++ retryMsg)
  else if (500 <=? status)%Z then
    detailOr ("msgvault server error (" ++ numberToString status
              ++ "). Retry in a moment.")
  else
    detailOr ("msgvault request failed with status " ++ numberToString status
              ++ ".").

(** [process.env]: the value of a variable, when it is set. *)
Definition Environment : Type := string -> option string.

Definition getApiKey (env : Environment) (configApiKeyEnv : string)
  : option string :=
  let envName :=
    if falsyString (Some configApiKeyEnv) then DEFAULT_API_KEY_ENV
    else configApiKeyEnv in
  let usable (v : option string) : option string :=
    if falsyString v then None
    else if falsyString (Some (trim (nullish v ""))) then None
    else Some (trim (nullish v "")) in
  match usable (env envName) with
  | Some key => Some key
  | None =>
      if negb (envName =? DEFAULT_API_KEY_ENV)
      then usable (env DEFAULT_API_KEY_ENV)
      else None
  end.

(** A response as [requestJson] reads it: its status, its body as
    [readPayload] returns it, and its [retry-after] header. *)
Record Response : Type := {
  status : Z;
  body : JsValue;
  retryAfterHeader : option string
}.

(** [response.ok]: a status in the range 200 to 299. *)
Definition responseOk (response : Response) : bool :=
  ((200 <=? status response) && (status response <=? 299))%Z.

Inductive FetchOutcome : Type :=
| FetchRejected (err : Thrown)
| FetchResolved (response : Response).

(** How a call of [requestJson] ends: with the payload, or at one of its
    four [throw] sites with the message thrown there. *)
Inductive RequestResult : Type :=
| Returned (payload : JsValue)
| MissingApiKey (message : string)
| TransportFailure (message : string)
| ToolError (message : string)
| AttemptsExhausted (message : string).

(** A run of [requestJson]: its result, the number of [fetch] calls and the
    delays slept, oldest first. *)
Record RequestRun : Type := {
  result : RequestResult;
  fetches : nat;
  sleeps : list Z
}.

(** [await sleep(ms)] before the rest of a run. *)
Definition afterSleep (ms : Z) (rest : RequestRun) : RequestRun :=
  {| result := result rest;
     fetches := fetches rest;
     sleeps := Z.max 0 ms :: sleeps rest |}.

(** One more [fetch] before the rest of a run. *)
Definition afterFetch (rest : RequestRun) : RequestRun :=
  {| result := result rest;
     fetches := S (fetches rest);
     sleeps := sleeps rest |}.

Definition finished (r : RequestResult) : RequestRun :=
  {| result := r; fetches := 0; sleeps := [] |}.

(** The retry loop of [requestJson],
    [for (attempt = 1; attempt <= MAX_REQUEST_ATTEMPTS; attempt += 1)],
    entered with [remaining] iterations to go, and the [throw] behind it.
    [fetch attempt] is the outcome of the [fetch] call of that iteration and
    [clock attempt] what [Date.now()] returns in it. *)
Fixpoint requestAttempts (platform : Platform) (clock : Z -> Z)
    (fetch : Z -> FetchOutcome) (configApiKeyEnv method pathname : string)
    (remaining : nat) (attempt : Z) : RequestRun :=
  match remaining with
  | O =>
      finished (AttemptsExhausted
                  ("msgvault request failed (" ++ method ++ " " ++ pathname
                   ++ ") after retry attempts."))
  | S remaining' =>
      let continue :=
        requestAttempts platform clock fetch configApiKeyEnv method pathname
          remaining' (attempt + 1) in
      afterFetch
        match fetch attempt with
        | FetchRejected err =>
            if (attempt <? MAX_REQUEST_ATTEMPTS)%Z
               && isRetryableTransportError err
            then afterSleep
                   (computeRetryDelayMs platform (clock attempt) None attempt)
                   continue
            else
              let msg :=
                match err with
                | ThrownError message => message
                | ThrownOther rendered => rendered
                end in
              finished (TransportFailure
                          ("msgvault request failed (" ++ method ++ " "
                           ++ pathname ++ "): " ++ msg
                           ++ ". Ensure msgvault serve is running."))
        | FetchResolved response =>
            if responseOk response then finished (Returned (body response))
            else if (attempt <? MAX_REQUEST_ATTEMPTS)%Z
                    && isRetryableStatus (status response)
            then afterSleep
                   (computeRetryDelayMs platform (clock attempt)
                      (retryAfterHeader response) attempt)
                   continue
            else finished (ToolError
                             (buildToolError (status response) (body response)
                                configApiKeyEnv (retryAfterHeader response)))
        end
  end.

(** [requestJson] once the URL is built ([pathname] is [url.pathname]):
    the API key check, then the retry loop.  The headers and the body only
    feed [fetch], whose outcomes are given by [fetch]. *)
Definition requestJson (platform : Platform) (env : Environment)
    (clock : Z -> Z) (fetch : Z -> FetchOutcome)
    (configApiKeyEnv method pathname : string) (requireAuth : bool)
  : RequestRun :=
  if requireAuth && falsyString (getApiKey env configApiKeyEnv)
  then finished (MissingApiKey
                   ("Missing msgvault API key. Set " ++ configApiKeyEnv
                    ++ " in the gateway environment."))
  else requestAttempts platform clock fetch configApiKeyEnv method pathname
         (Z.to_nat MAX_REQUEST_ATTEMPTS) 1.

(* ================================================================= *)
(** ** The domain-search tool: [extensions/domain-search] *)

(** The units of a string before the first one satisfying [stop]:
    [s.split(X, 1)[0]] for a one-unit separator class [X]. *)
Fixpoint takeUntil (stop : ascii -> bool) (s : string) : string :=
  match s with
  | EmptyString => EmptyString
  | String c rest => if stop c then EmptyString
                     else String c (takeUntil stop rest)
  end.

(** [s.split(sep)] for a one-unit separator. *)
Fixpoint splitOn (sep : ascii) (s : string) : list string :=
  match s with
  | EmptyString => [EmptyString]
  | String c rest =>
      if (c =? sep)%char then EmptyString :: splitOn sep rest
      else
        match splitOn sep rest with
        | [] => [String c EmptyString]
        | piece :: pieces => String c piece :: pieces
        end
  end.

(** [Boolean(s)] on a string, as the argument of [filter]. *)
Definition nonEmpty (s : string) : bool := negb (falsyString (Some s)).

Definition isAsciiLetter (c : ascii) : bool :=
  let n := nat_of_ascii c in
  (((65 <=? n) && (n <=? 90)) || ((97 <=? n) && (n <=? 122)))%nat.

Definition isAsciiDigit (c : ascii) : bool :=
  let n := nat_of_ascii c in
  ((48 <=? n) && (n <=? 57))%nat.

(** The class [[a-z0-9+.-]] under the [i] flag. *)
Definition isSchemeUnit (c : ascii) : bool :=
  isAsciiLetter c || isAsciiDigit c
  || (c =? "+")%char || (c =? ".")%char || (c =? "-")%char.

(** [[a-z0-9+.-]*:\/\/] matched at the start of [s]. *)
Fixpoint schemeTail (s : string) : bool :=
  String.prefix "://" s
  || match s with
     | EmptyString => false
     | String c rest => isSchemeUnit c && schemeTail rest
     end.

(** [/^[a-z][a-z0-9+.-]*:\/\//i.test(value.trim())]. *)
Definition looksLikeUrl (value : string) : bool :=
  match trim value with
  | EmptyString => false
  | String c rest => isAsciiLetter c && schemeTail rest
  end.

Definition isPathStart (c : ascii) : bool :=
  (c =? "/")%char || (c =? "?")%char || (c =? "#")%char.

Definition isColon (c : ascii) : bool := (c =? ":")%char.

Definition isDot (c : ascii) : bool := (c =? ".")%char.

(** [s.replace(/\.$/, "")]: one final dot removed. *)
Fixpoint dropFinalDot (s : string) : string :=
  match s with
  | EmptyString => EmptyString
  | String c EmptyString => if isDot c then EmptyString else s
  | String c rest => String c (dropFinalDot rest)
  end.

(** [urlHostname s] is [new URL(s).hostname], [None] when the constructor
    throws. *)
Definition extractHostname (urlHostname : string -> option string)
    (value : string) : string :=
  let trimmed := trim value in
  if falsyString (Some trimmed) then ""
  else
    let bestEffort :=
      let withoutPath := takeUntil isPathStart trimmed in
      let withoutPort := takeUntil isColon withoutPath in
      dropFinalDot withoutPort in
    if looksLikeUrl trimmed then
      match urlHostname trimmed with
      | Some hostname => hostname
      | None => bestEffort
      end
    else bestEffort.

(** [s.replace(/^\./, "")]: one leading dot removed. *)
Definition dropLeadingDot (s : string) : string :=
  match s with
  | String c rest => if isDot c then rest else s
  | EmptyString => EmptyString
  end.

Definition normalizeTld (value : string) : string :=
  dropLeadingDot (toLowerCase (trim value)).

(** What [parseApexDomainOrName] returns: [{ name: string; tld?: string }]. *)
Record ApexDomain : Type := {
  name : string;
  tld : option string
}.

(** The last two elements of an array of length at least two:
    [parts[parts.length - 2]] and [parts[parts.length - 1]]. *)
Fixpoint lastTwo (parts : list string) : option (string * string) :=
  match parts with
  | [] | [_] => None
  | [sld; top] => Some (sld, top)
  | _ :: rest => lastTwo rest
  end.

Definition parseApexDomainOrName (urlHostname : string -> option string)
    (value : string) : ApexDomain :=
  let host := toLowerCase (extractHostname urlHostname value) in
  let parts := List.filter nonEmpty (splitOn "." host) in
  match lastTwo parts with
  | Some (sld, top) => {| name := sld; tld := Some top |}
  | None => {| name := host; tld := None |}
  end.

(** The outcome of a function that may throw a [ToolInputError]. *)
Inductive ToolOutcome (A : Type) : Type :=
| Done : A -> ToolOutcome A
| ThrowToolInputError : string -> ToolOutcome A.

Arguments Done {A} _.
Arguments ThrowToolInputError {A} _.

Definition readString (params : list (string * JsValue)) (key : string)
    (required : bool) : ToolOutcome (option string) :=
  match stringValue (lookupField params key) with
  | None =>
      if required then ThrowToolInputError (key ++ " required")
      else Done None
  | Some raw =>
      let value := trim raw in
      if falsyString (Some value) then
        if required then ThrowToolInputError (key ++ " required")
        else Done None
      else Done (Some value)
  end.

Definition readBoolean (params : list (string * JsValue)) (key : string)
  : option bool :=
  booleanValue (lookupField params key).

Definition readNumber (params : list (string * JsValue)) (key : string)
  : option QArith_base.Q :=
  finiteNumber (lookupField params key).

(** [raw.filter((entry) => typeof entry === "string")]. *)
Fixpoint stringEntries (raw : list JsValue) : list string :=
  match raw with
  | [] => []
  | entry :: rest =>
      match stringValue entry with
      | Some text => text :: stringEntries rest
      | None => stringEntries rest
      end
  end.

Definition readStringArray (params : list (string * JsValue)) (key : string)
  : option (list string) :=
  match lookupField params key with
  | VArray raw =>
      let values := List.filter nonEmpty (List.map trim (stringEntries raw)) in
      match values with
      | [] => None
      | _ :: _ => Some values
      end
  | VString raw =>
      let value := trim raw in
      if falsyString (Some value) then None else Some [value]
  | _ => None
  end.

(** The argument [execute] hands to [impl.executeSearchDomain]. *)
Record SearchDomainInput : Type := {
  domain_name : string;
  tlds : option (list string);
  registrars : option (list string)
}.

(** The [search_domain] case of [execute], up to the call of the
    implementation. *)
Definition searchDomainInput (urlHostname : string -> option string)
    (params : list (string * JsValue)) : ToolOutcome SearchDomainInput :=
  match readString params "domain_name" true with
  | ThrowToolInputError message => ThrowToolInputError message
  | Done None => ThrowToolInputError "domain_name required"
  | Done (Some domainInput) =>
      let parsed := parseApexDomainOrName urlHostname domainInput in
      let tldsRaw :=
        if falsyString (tld parsed) then readStringArray params "tlds"
        else Some [nullish (tld parsed) ""] in
      Done {| domain_name := name parsed;
              tlds := option_map
                        (fun raw => List.filter nonEmpty
                                      (List.map normalizeTld raw))
                        tldsRaw;
              registrars := readStringArray params "registrars" |}
  end.

(** [Set.prototype.add] on a set kept in insertion order. *)
Definition setAdd (set : list string) (value : string) : list string :=
  if List.existsb (String.eqb value) set then set
  else (set ++ [value])%list.

(** The loop of the [bulk_search] case: the names pushed to
    [normalizedDomains] and the set [inferredTlds]. *)
Fixpoint collectBulkDomains (urlHostname : string -> option string)
    (rawDomains : list string) (normalizedDomains inferredTlds : list string)
  : list string * list string :=
  match rawDomains with
  | [] => (normalizedDomains, inferredTlds)
  | rawDomain :: rest =>
      let parsed := parseApexDomainOrName urlHostname rawDomain in
      collectBulkDomains urlHostname rest
        (normalizedDomains ++ [name parsed])%list
        (if falsyString (tld parsed) then inferredTlds
         else setAdd inferredTlds (normalizeTld (nullish (tld parsed) "")))
  end.

(** The argument [execute] hands to [impl.executeBulkSearch]. *)
Record BulkSearchInput : Type := {
  domains : list string;
  bulkTld : option string;
  registrar : option string
}.

(** The double quote, for the messages that quote a value. *)
Definition quote : string := String (ascii_of_nat 34) EmptyString.

(** The [bulk_search] case of [execute], up to the call of the
    implementation. *)
Definition bulkSearchInput (urlHostname : string -> option string)
    (params : list (string * JsValue)) : ToolOutcome BulkSearchInput :=
  match readStringArray params "domains" with
  | None => ThrowToolInputError "domains required"
  | Some rawDomains =>
      let (normalizedDomains, inferredTlds) :=
        collectBulkDomains urlHostname rawDomains [] [] in
      if (1 <? List.length inferredTlds)%nat then
        ThrowToolInputError
          "bulk_search only supports a single TLD. Pass bare names plus tld, or full domains that all share the same TLD."
      else
        match readString params "tld" false with
        | ThrowToolInputError message => ThrowToolInputError message
        | Done tldParamRaw =>
            let tldParam :=
              if falsyString tldParamRaw then None
              else Some (normalizeTld (nullish tldParamRaw "")) in
            let inferredTld :=
              match inferredTlds with
              | [only] => Some only
              | _ => None
              end in
            if negb (falsyString tldParam) && negb (falsyString inferredTld)
               && negb (nullish tldParam "" =? nullish inferredTld "")
            then
              ThrowToolInputError
                ("bulk_search tld mismatch: got tld=" ++ quote
                 ++ nullish tldParamRaw "" ++ quote
                 ++ " but domains imply tld=" ++ quote
                 ++ nullish inferredTld "" ++ quote ++ ".")
            else
              match readString params "registrar" false with
              | ThrowToolInputError message => ThrowToolInputError message
              | Done registrarParam =>
                  Done {| domains := normalizedDomains;
                          bulkTld :=
                            match inferredTld with
                            | Some inferred => Some inferred
                            | None => tldParam
                            end;
                          registrar := registrarParam |}
              end
        end
  end.

(** The [project_context] object [execute] rebuilds field by field. *)
Record ProjectContext : Type := {
  project_name : option string;
  project_description : option string;
  project_keywords : option (list string);
  project_industry : option string;
  project_repository_url : option string
}.

(** The argument [execute] hands to [impl.executeSuggestDomainsSmart]. *)
Record SuggestDomainsInput : Type := {
  query : option string;
  suggestTld : option string;
  industry : option string;
  style : option string;
  max_suggestions : option QArith_base.Q;
  include_premium : option bool;
  project_context : option ProjectContext
}.

(** The [suggest_domains_smart] case of [execute], up to the call of the
    implementation. *)
Definition suggestDomainsInput (params : list (string * JsValue))
  : ToolOutcome SuggestDomainsInput :=
  match readString params "query" true with
  | ThrowToolInputError message => ThrowToolInputError message
  | Done queryParam =>
      match readString params "tld" false,
            readString params "industry" false,
            readString params "style" false with
      | Done tldRaw, Done industryParam, Done styleParam =>
          let context := lookupField params "project_context" in
          let projectContextPayload :=
            if truthy context && typeofObject context then
              Some {| project_name :=
                        stringValue (getProperty context "name");
                      project_description :=
                        stringValue (getProperty context "description");
                      project_keywords :=
                        match getProperty context "keywords" with
                        | VArray keywords =>
                            Some (List.filter nonEmpty
                                    (List.map trim (stringEntries keywords)))
                        | _ => None
                        end;
                      project_industry :=
                        stringValue (getProperty context "industry");
                      project_repository_url :=
                        stringValue (getProperty context "repository_url") |}
            else None in
          Done {| query := queryParam;
                  suggestTld :=
                    if falsyString tldRaw then None
                    else Some (normalizeTld (nullish tldRaw ""));
                  industry := industryParam;
                  style := styleParam;
                  max_suggestions := readNumber params "max_suggestions";
                  include_premium := readBoolean params "include_premium";
                  project_context := projectContextPayload |}
      | ThrowToolInputError message, _, _
      | _, ThrowToolInputError message, _
      | _, _, ThrowToolInputError message => ThrowToolInputError message
      end
  end.

(** The call of the implementation that [execute] ends in. *)
Inductive ImplCall : Type :=
| ExecuteSearchDomain (input : SearchDomainInput)
| ExecuteBulkSearch (input : BulkSearchInput)
| ExecuteSuggestDomainsSmart (input : SuggestDomainsInput)
| ExecuteTldInfo (tldArg : string) (detailed : option bool)
| ExecuteCheckSocials (nameArg : option string)
    (platforms : option (list string)).

Definition mapOutcome {A B : Type} (f : A -> B) (o : ToolOutcome A)
  : ToolOutcome B :=
  match o with
  | Done a => Done (f a)
  | ThrowToolInputError message => ThrowToolInputError message
  end.

(** [execute] of the tool [createDomainSearchTool] returns, from its
    arguments to the call of the loaded implementation. *)
Definition execute (urlHostname : string -> option string)
    (params : list (string * JsValue)) : ToolOutcome ImplCall :=
  match readString params "action" true with
  | ThrowToolInputError message => ThrowToolInputError message
  | Done action =>
      let action := nullish action "" in
      if action =? "search_domain" then
        mapOutcome ExecuteSearchDomain (searchDomainInput urlHostname params)
      else if action =? "bulk_search" then
        mapOutcome ExecuteBulkSearch (bulkSearchInput urlHostname params)
      else if action =? "suggest_domains_smart" then
        mapOutcome ExecuteSuggestDomainsSmart (suggestDomainsInput params)
      else if action =? "tld_info" then
        match readString params "tld" true with
        | ThrowToolInputError message => ThrowToolInputError message
        | Done None => ThrowToolInputError "tld required"
        | Done (Some tldRaw) =>
            Done (ExecuteTldInfo (normalizeTld tldRaw)
                    (readBoolean params "detailed"))
        end
      else if action =? "check_socials" then
        match readString params "name" true with
        | ThrowToolInputError message => ThrowToolInputError message
        | Done nameParam =>
            Done (ExecuteCheckSocials nameParam
                    (readStringArray params "platforms"))
        end
      else ThrowToolInputError ("Unsupported action: " ++ action)
  end.

(* ================================================================= *)
(** ** The compatibility server: [scripts/msgvault/http-compat-server.mjs] *)

(** [a || b] on environment variables and strings: the first that is set
    and non-empty. *)
Definition orElse (a b : option string) : option string :=
  if falsyString a then b else a.

(** The keys of the set [parseAuthKeys] returns, in the order of the
    variable; [has] and [size > 0] do not depend on the repeats a set
    drops. *)
Definition parseAuthKeys (env : Environment) : list string :=
  let raw :=
    nullish (orElse (orElse (env "MSGVAULT_COMPAT_API_KEYS")
                       (env "MSGVAULT_COMPAT_API_KEY"))
               (Some ""))
      "" in
  List.filter nonEmpty (List.map trim (splitOn "," raw)).

(** [s.slice(n)] for a non-negative [n]. *)
Fixpoint slice (n : nat) (s : string) : string :=
  match n, s with
  | O, _ => s
  | S _, EmptyString => EmptyString
  | S n', String _ rest => slice n' rest
  end.

(** [headers] is [req.headers]. *)
Definition readAuthToken (headers : list (string * JsValue)) : string :=
  let bearer :=
    match stringValue (lookupField headers "authorization") with
    | Some auth =>
        if String.prefix "bearer " (toLowerCase auth)
        then Some (trim (slice 7 auth))
        else None
    | None => None
    end in
  match bearer with
  | Some token => token
  | None =>
      match stringValue (lookupField headers "x-api-key") with
      | Some xKey => trim xKey
      | None => ""
      end
  end.

(** The key check of [handleRequest]: with keys configured, the token of
    the request must be one of them; [false] is the 401 answer. *)
Definition passesKeyCheck (authKeys : list string)
    (headers : list (string * JsValue)) : bool :=
  match authKeys with
  | [] => true
  | _ :: _ => List.existsb (String.eqb (readAuthToken headers)) authKeys
  end.

(* ================================================================= *)
(** ** Inputs of the plugins' test suites *)

(** A URL parser that rejects its input, which leaves [extractHostname] to
    its best-effort path; the tests pass no URL. *)
Definition rejectingUrlParser (text : string) : option string := None.

(** A platform that reads the [retry-after] value ["0"] of the msgvault
    tests and nothing else. *)
Definition testPlatform : Platform :=
  {| parseInt10 := fun text => if text =? "0" then Some 0%Z else None;
     dateParse := fun _ => None |}.

(** The environment of the msgvault tests: [MSGVAULT_API_KEY=test-key]. *)
Definition testEnvironment : Environment :=
  fun variable =>
    if variable =? "MSGVAULT_API_KEY" then Some "test-key" else None.

(** The test [retries on rate limit and succeeds]: a 429 with
    [retry-after: 0], then a 200. *)
Definition rateLimitedThenOk (attempt : Z) : FetchOutcome :=
  if (attempt =? 1)%Z then
    FetchResolved
      {| status := 429;
         body := VObject [("error", VString "rate_limit_exceeded")];
         retryAfterHeader := Some "0" |}
  else
    FetchResolved
      {| status := 200;
         body := VObject [("total", VNumber (Finite (QArith_base.inject_Z 1)))];
         retryAfterHeader := None |}.

(** The arguments of the domain-search tests. *)
Definition searchDomainParams : list (string * JsValue) :=
  [("action", VString "search_domain");
   ("domain_name", VString "vibecoding");
   ("tlds", VArray [VString ".COM"; VString "IO"])].

Definition bulkSearchParams : list (string * JsValue) :=
  [("action", VString "bulk_search");
   ("domains", VArray [VString "a.com"; VString "b.com"])].

(** A compatibility server with two keys, and a request bearing one. *)
Definition twoKeysEnvironment : Environment :=
  fun variable =>
    if variable =? "MSGVAULT_COMPAT_API_KEYS" then Some "alpha, beta"
    else None.

Definition bearerBetaHeaders : list (string * JsValue) :=
  [("authorization", VString "Bearer beta")].

Section Model.

(** The collaborators imported from [src/routing/session-key.js]. *)
Variable normalizeAgentId : option string -> string.
Variable normalizeMainKey : option string -> string.

(** The type of an event payload ([unknown] in the source). *)
Context {Payload : Type}.

Definition resolveSnapshotMainSessionKey
    (defaults : nullable SessionDefaultsSnapshot)
  : completion (option string) :=
  if falsyObject defaults then Normal None
  else
    rawMainSessionKey <- member mainSessionKey defaults ;;
    let explicitMainSessionKey := option_map trim rawMainSessionKey in
    if negb (falsyString explicitMainSessionKey)
    then Normal explicitMainSessionKey
    else
      rawScope <- member scope defaults ;;
      if normalizeScope rawScope =? "global" then Normal (Some "global")
      else
        rawAgentId <- member defaultAgentId defaults ;;
        rawMainKey <- member mainKey defaults ;;
        let agentId := normalizeAgentId rawAgentId in
        let mainKey := normalizeMainKey rawMainKey in
        Normal (Some ("agent:" ++ agentId ++ ":" ++ mainKey)).

Definition isMainSessionAlias
    (value : option string) (defaults : nullable SessionDefaultsSnapshot)
  : completion bool :=
  let raw := trim (nullish value "") in
  if falsyString (Some raw) then Normal false
  else
    resolved <- resolveSnapshotMainSessionKey defaults ;;
    match resolved with
    | None | Some EmptyString => Normal false
    | Some (String _ _ as resolvedMainSessionKey) =>
        let normalizedRaw := toLowerCase raw in
        let normalizedResolved := toLowerCase resolvedMainSessionKey in
        if normalizedRaw =? normalizedResolved then Normal true
        else if normalizedResolved =? "global"
        then Normal (normalizedRaw =? "global")
        else
          let agentId := normalizeAgentId (optMember defaultAgentId defaults) in
          let mainKey := normalizeMainKey (optMember mainKey defaults) in
          Normal ((normalizedRaw =? "main")
                  || (normalizedRaw =? mainKey)
                  || (normalizedRaw =? "agent:" ++ agentId ++ ":main")
                  || (normalizedRaw =? "agent:" ++ agentId ++ ":" ++ mainKey))
    end.

(* =============================================================== *)
(** ** The reconnect orchestrator: [app-gateway.ts] *)

(** Modelled from the spec: [app-gateway.ts] is missing, only its test is
    at hand.  The event envelope of the transport contract:
    [{ event: string, payload?: unknown, seq?: number }]. *)
Record EventEnvelope : Type := {
  event : string;
  payload : option Payload;
  seq : option Z
}.

(** Modelled from the spec: the handshake message of the transport
    contract, [{ snapshot?: { sessionDefaults?: SessionDefaultsSnapshot } }]. *)
Record HelloSnapshot : Type := {
  sessionDefaults : option SessionDefaultsSnapshot
}.

(** Modelled from the spec: the argument of [onHello]. *)
Record Hello : Type := {
  snapshot : option HelloSnapshot
}.

(** Modelled from the spec: the argument of [onClose],
    [{ code: number; reason: string }]; [reason] may also be absent. *)
Record CloseInfo : Type := {
  code : Z;
  reason : option string
}.

(** Modelled from the spec: the argument of [onGap],
    [{ expected: number; received: number }]. *)
Record GapInfo : Type := {
  expected : Z;
  received : Z
}.

(** Modelled from the spec: the settings fields mirrored on handshake. *)
Record Settings : Type := {
  settingsSessionKey : string;
  lastActiveSessionKey : string
}.

(** Modelled from the spec: the host state record of section 3,
    [connected], [lastError], [sessionKey], [eventLogBuffer] and the
    settings. *)
Record HostState : Type := {
  connected : bool;
  lastError : option string;
  sessionKey : string;
  eventLogBuffer : list EventEnvelope;
  settings : Settings
}.

(** Modelled from the spec: a transport client, built once per connection
    attempt; its four callbacks are closed over [myGeneration]. *)
Record TransportClient : Type := {
  myGeneration : nat;
  started : bool;
  stopped : bool
}.

(** Modelled from the spec: the state the orchestrator owns, a counter
    [currentGeneration] and a nullable reference to the active client.
    References are positions in [clients], the clients built so far (the
    test's [gatewayClientInstances]). *)
Record Orchestrator : Type := {
  currentGeneration : nat;
  activeClient : option nat;
  clients : list TransportClient
}.

(** Modelled from the spec: the downstream loaders triggered on hello. *)
Inductive Loader : Type :=
| LoadAgents | LoadNodes | LoadDevices | LoadCron | LoadAssistantIdentity.

(** Modelled from the spec: the orchestrator, the host it mutates and the
    loader calls issued so far. *)
Record Gateway : Type := {
  orchestrator : Orchestrator;
  host : HostState;
  triggered : list Loader
}.

(** Modelled from the spec: the orchestrator starts at generation 0 with
    no active client. *)
Definition initialOrchestrator : Orchestrator :=
  {| currentGeneration := 0; activeClient := None; clients := [] |}.

(** Modelled from the spec: [stop()] on a transport client. *)
Definition stop (c : TransportClient) : TransportClient :=
  {| myGeneration := myGeneration c; started := started c; stopped := true |}.

(** Modelled from the spec: [start()] on a transport client. *)
Definition start (c : TransportClient) : TransportClient :=
  {| myGeneration := myGeneration c; started := true; stopped := stopped c |}.

(** Modelled from the spec: a method call through a client reference. *)
Fixpoint callOn (method : TransportClient -> TransportClient)
    (ref : nat) (cs : list TransportClient) : list TransportClient :=
  match cs, ref with
  | [], _ => []
  | c :: rest, O => method c :: rest
  | c :: rest, S ref' => c :: callOn method ref' rest
  end.

(** Modelled from the spec: [connect(host)], steps 1 to 4 of section 4.2:
    bump the generation, stop and drop the previous client, build a client
    bound to the new generation, store it as active and start it. *)
Definition connectGateway (g : Gateway) : Gateway :=
  let o := orchestrator g in
  let generation := S (currentGeneration o) in
  let previous :=
    match activeClient o with
    | Some ref => callOn stop ref (clients o)
    | None => clients o
    end in
  let client :=
    {| myGeneration := generation; started := false; stopped := false |} in
  let ref := List.length previous in
  {| orchestrator :=
       {| currentGeneration := generation;
          activeClient := Some ref;
          clients := callOn start ref (previous ++ [client])%list |};
     host := host g;
     triggered := triggered g |}.

(** Modelled from the spec: the client built by the latest [connect]
    (the test reads it as the last of [gatewayClientInstances]). *)
Definition latestClient (g : Gateway) : nat :=
  pred (List.length (clients (orchestrator g))).

(** Modelled from the spec: [hello.snapshot.sessionDefaults], when
    present. *)
Definition helloSessionDefaults (hello : Hello)
  : option SessionDefaultsSnapshot :=
  match snapshot hello with
  | Some s => sessionDefaults s
  | None => None
  end.

(** Modelled from the spec: the session key and its two mirrored settings
    fields take the resolved value. *)
Definition applySessionKey (key : string) (h : HostState) : HostState :=
  {| connected := connected h;
     lastError := lastError h;
     sessionKey := key;
     eventLogBuffer := eventLogBuffer h;
     settings := {| settingsSessionKey := key;
                    lastActiveSessionKey := key |} |}.

(** Modelled from the spec: what [onHello] does to the host: set
    [connected]; if session defaults are present, resolve them and, if the
    result differs from [host.sessionKey], update the key and its
    mirrors. *)
Definition onHello (hello : Hello) (h : HostState) : HostState :=
  let h1 :=
    {| connected := true;
       lastError := lastError h;
       sessionKey := sessionKey h;
       eventLogBuffer := eventLogBuffer h;
       settings := settings h |} in
  match helloSessionDefaults hello with
  | None => h1
  | Some defaults =>
      match resolveSnapshotMainSessionKey (Present defaults) with
      | Normal (Some resolved) =>
          if resolved =? sessionKey h1 then h1
          else applySessionKey resolved h1
      | Normal None | ThrowTypeError => h1
      end
  end.

(** Modelled from the spec: [info.reason || "no reason"]. *)
Definition reasonOrDefault (reason : option string) : string :=
  if falsyString reason then "no reason" else nullish reason "".

(** Modelled from the spec: [onClose] sets [host.lastError] to
    ["disconnected (" + code + "): " + (reason || "no reason")]. *)
Definition onClose (info : CloseInfo) (h : HostState) : HostState :=
  {| connected := connected h;
     lastError := Some ("disconnected (" ++ numberToString (code info)
                        ++ "): " ++ reasonOrDefault (reason info));
     sessionKey := sessionKey h;
     eventLogBuffer := eventLogBuffer h;
     settings := settings h |}.

(** Modelled from the spec: [onGap] sets [host.lastError] to the gap
    message built from [expected] and [received]. *)
Definition onGap (info : GapInfo) (h : HostState) : HostState :=
  {| connected := connected h;
     lastError := Some ("event gap detected (expected seq "
                        ++ numberToString (expected info) ++ ", got "
                        ++ numberToString (received info)
                        ++ "); refresh recommended");
     sessionKey := sessionKey h;
     eventLogBuffer := eventLogBuffer h;
     settings := settings h |}.

(** Modelled from the spec: [onEvent] appends the envelope to
    [host.eventLogBuffer], in arrival order. *)
Definition onEvent (evt : EventEnvelope) (h : HostState) : HostState :=
  {| connected := connected h;
     lastError := lastError h;
     sessionKey := sessionKey h;
     eventLogBuffer := (eventLogBuffer h ++ [evt])%list;
     settings := settings h |}.

(** Modelled from the spec: the four callback slots of a transport
    client, with the argument of one invocation. *)
Inductive Callback : Type :=
| OnHello (hello : Hello)
| OnClose (info : CloseInfo)
| OnGap (info : GapInfo)
| OnEvent (evt : EventEnvelope).

(** Modelled from the spec: the host mutation of each callback once the
    generation check has passed. *)
Definition mutateHost (cb : Callback) (h : HostState) : HostState :=
  match cb with
  | OnHello hello => onHello hello h
  | OnClose info => onClose info h
  | OnGap info => onGap info h
  | OnEvent evt => onEvent evt h
  end.

(** Modelled from the spec: the loaders a callback triggers; only the
    handshake triggers any. *)
Definition loadersOf (cb : Callback) : list Loader :=
  match cb with
  | OnHello _ =>
      [LoadAgents; LoadNodes; LoadDevices; LoadCron; LoadAssistantIdentity]
  | OnClose _ | OnGap _ | OnEvent _ => []
  end.

(** The host of [app-gateway.node.test.ts] ([createHost]), on the fields
    of the host state. *)
Definition createHost : HostState :=
  {| connected := false;
     lastError := None;
     sessionKey := "main";
     eventLogBuffer := [];
     settings := {| settingsSessionKey := "main";
                    lastActiveSessionKey := "main" |} |}.

(** Modelled from the spec: the gateway before the first [connect], a
    fresh orchestrator around a host. *)
Definition freshGateway (h : HostState) : Gateway :=
  {| orchestrator := initialOrchestrator; host := h; triggered := [] |}.

(** Modelled from the spec: the generations the clients built so far are
    bound to, oldest first. *)
Definition generations (g : Gateway) : list nat :=
  List.map myGeneration (clients (orchestrator g)).

(** Modelled from the spec: the generation check of a callback,
    [myGeneration === currentGeneration], for the client [ref]. *)
Definition boundToCurrentGeneration (ref : nat) (g : Gateway) : bool :=
  match nth_error (clients (orchestrator g)) ref with
  | Some client =>
      (myGeneration client =? currentGeneration (orchestrator g))%nat
  | None => false
  end.

(** Modelled from the spec: the transport invokes a callback of the
    client [ref].  The callback first checks
    [myGeneration === currentGeneration] and returns without touching the
    host when the check fails. *)
Definition invoke (ref : nat) (cb : Callback) (g : Gateway) : Gateway :=
  match nth_error (clients (orchestrator g)) ref with
  | None => g
  | Some client =>
      if (myGeneration client =? currentGeneration (orchestrator g))%nat
      then {| orchestrator := orchestrator g;
              host := mutateHost cb (host g);
              triggered := (triggered g ++ loadersOf cb)%list |}
      else g
  end.


(* =============================================================== *)
(** ** Facts about the string built-ins *)

Ltac each_code_unit c :=
  destruct c as [[] [] [] [] [] [] [] []]; reflexivity.

Lemma toLowerCaseUnit_white (c : ascii) :
  isWhiteSpace (toLowerCaseUnit c) = isWhiteSpace c.
Proof. each_code_unit c. Qed.

Lemma toLowerCaseUnit_idem (c : ascii) :
  toLowerCaseUnit (toLowerCaseUnit c) = toLowerCaseUnit c.
Proof. each_code_unit c. Qed.

Lemma toLowerCase_idem (s : string) :
  toLowerCase (toLowerCase s) = toLowerCase s.
Proof.
  induction s as [|c s IH]; simpl.
  - reflexivity.
  - now rewrite toLowerCaseUnit_idem, IH.
Qed.

Lemma toLowerCase_app (s t : string) :
  toLowerCase (s ++ t) = toLowerCase s ++ toLowerCase t.
Proof.
  induction s as [|c s IH]; simpl; [reflexivity | now rewrite IH].
Qed.

Lemma toLowerCase_empty (s : string) :
  toLowerCase s = "" <-> s = "".
Proof.
  destruct s; simpl; split; intros H; try reflexivity; discriminate H.
Qed.

Lemma trimStart_toLowerCase (s : string) :
  trimStart (toLowerCase s) = toLowerCase (trimStart s).
Proof.
  induction s as [|c s IH]; simpl.
  - reflexivity.
  - rewrite toLowerCaseUnit_white.
    destruct (isWhiteSpace c); [exact IH | reflexivity].
Qed.

Lemma trimEnd_toLowerCase (s : string) :
  trimEnd (toLowerCase s) = toLowerCase (trimEnd s).
Proof.
  induction s as [|c s IH]; simpl.
  - reflexivity.
  - rewrite IH, toLowerCaseUnit_white.
    destruct (trimEnd s); simpl; [destruct (isWhiteSpace c)|]; reflexivity.
Qed.

Lemma trim_toLowerCase (s : string) :
  trim (toLowerCase s) = toLowerCase (trim s).
Proof.
  unfold trim. now rewrite trimStart_toLowerCase, trimEnd_toLowerCase.
Qed.

Lemma trimEnd_idem (s : string) : trimEnd (trimEnd s) = trimEnd s.
Proof.
  induction s as [|c s IH]; simpl.
  - reflexivity.
  - destruct (trimEnd s) as [|d kept] eqn:E.
    + destruct (isWhiteSpace c) eqn:W; simpl; [reflexivity | now rewrite W].
    + change (trimEnd (String c (String d kept)))
        with (match trimEnd (String d kept) with
              | "" => if isWhiteSpace c then "" else String c ""
              | String _ _ as k => String c k
              end).
      now rewrite IH.
Qed.

(** A string that starts with a non-blank keeps its start under
    [trimEnd]. *)
Lemma trimStart_trimEnd (s : string) :
  trimStart s = s -> trimStart (trimEnd s) = trimEnd s.
Proof.
  destruct s as [|c s]; simpl; [reflexivity|].
  destruct (isWhiteSpace c) eqn:W.
  - intros H. exfalso.
    assert (L : forall t, String.length (trimStart t) <= String.length t).
    { induction t as [|d t IH]; simpl; [lia|].
      destruct (isWhiteSpace d); simpl; lia. }
    specialize (L s). rewrite H in L. simpl in L. lia.
  - intros _. destruct (trimEnd s); simpl; now rewrite W.
Qed.

Lemma trimStart_idem (s : string) : trimStart (trimStart s) = trimStart s.
Proof.
  induction s as [|c s IH]; simpl; [reflexivity|].
  destruct (isWhiteSpace c) eqn:W; [exact IH | simpl; now rewrite W].
Qed.

Lemma trim_idem (s : string) : trim (trim s) = trim s.
Proof.
  unfold trim.
  rewrite (trimStart_trimEnd (trimStart s) (trimStart_idem s)).
  apply trimEnd_idem.
Qed.

(** Nothing is cut from the end of a string whose non-empty tail is
    already trimmed. *)
Lemma trimEnd_app (s t : string) :
  t <> "" -> trimEnd t = t -> trimEnd (s ++ t) = s ++ t.
Proof.
  intros Hne Ht. induction s as [|c s IH]; simpl; [exact Ht|].
  rewrite IH. destruct (s ++ t) eqn:E; [|reflexivity].
  destruct s; simpl in E; [contradiction | discriminate E].
Qed.

Lemma falsyString_toLowerCase (s : string) :
  falsyString (Some (toLowerCase s)) = falsyString (Some s).
Proof. destruct s; reflexivity. Qed.


(* =============================================================== *)
(** ** The resolver *)

(** The key an object resolves to: the three return sites of
    [resolveSnapshotMainSessionKey] behind the null check. *)
Lemma resolve_present (D : SessionDefaultsSnapshot) :
  resolveSnapshotMainSessionKey (Present D) =
  Normal (Some
    match option_map trim (mainSessionKey D) with
    | Some (String _ _ as explicit) => explicit
    | Some EmptyString | None =>
        if normalizeScope (scope D) =? "global" then "global"
        else "agent:" ++ normalizeAgentId (defaultAgentId D)
               ++ ":" ++ normalizeMainKey (mainKey D)
    end).
Proof.
  unfold resolveSnapshotMainSessionKey; simpl.
  destruct (mainSessionKey D) as [key|]; simpl.
  - destruct (trim key); simpl; [|reflexivity].
    destruct (normalizeScope (scope D) =? "global"); reflexivity.
  - destruct (normalizeScope (scope D) =? "global"); reflexivity.
Qed.

Lemma resolve_absent (defaults : nullable SessionDefaultsSnapshot) :
  falsyObject defaults = true ->
  resolveSnapshotMainSessionKey defaults = Normal None.
Proof.
  destruct defaults; simpl; intros H; [reflexivity .. | discriminate H].
Qed.

Lemma resolve_returns (defaults : nullable SessionDefaultsSnapshot) :
  exists r, resolveSnapshotMainSessionKey defaults = Normal r.
Proof.
  destruct defaults as [| |D].
  - now exists None.
  - now exists None.
  - rewrite resolve_present. eauto.
Qed.

Lemma resolve_some_present (defaults : nullable SessionDefaultsSnapshot) k :
  resolveSnapshotMainSessionKey defaults = Normal (Some k) ->
  exists D, defaults = Present D.
Proof.
  destruct defaults as [| |D]; simpl; intros H; try discriminate H. eauto.
Qed.

Lemma resolve_nonempty (defaults : nullable SessionDefaultsSnapshot) k :
  resolveSnapshotMainSessionKey defaults = Normal (Some k) -> k <> "".
Proof.
  intros H. destruct (resolve_some_present _ _ H) as [D ->].
  rewrite resolve_present in H. injection H as <-.
  destruct (option_map trim (mainSessionKey D)) as [[|c e]|];
    try destruct (normalizeScope (scope D) =? "global"); discriminate.
Qed.

Lemma agentKey_trimmed (agentId key : string) :
  trimEnd key = key ->
  trim ("agent:" ++ agentId ++ ":" ++ key) = "agent:" ++ agentId ++ ":" ++ key.
Proof.
  intros Hkey.
  assert (Htail : trimEnd (":" ++ key) = ":" ++ key).
  { change (":" ++ key) with (String ":" key).
    cbn [trimEnd]. rewrite Hkey. destruct key; reflexivity. }
  assert (Hmid : agentId ++ ":" ++ key <> "").
  { destruct agentId; discriminate. }
  unfold trim.
  change (trimStart ("agent:" ++ agentId ++ ":" ++ key))
    with ("agent:" ++ agentId ++ ":" ++ key).
  apply trimEnd_app; [exact Hmid|].
  apply trimEnd_app; [discriminate | exact Htail].
Qed.

(** The resolved key carries no surrounding blanks once the main-key
    normaliser returns none at its end. *)
Lemma resolve_trimmed (defaults : nullable SessionDefaultsSnapshot) k :
  trimEnd (normalizeMainKey (optMember mainKey defaults))
    = normalizeMainKey (optMember mainKey defaults) ->
  resolveSnapshotMainSessionKey defaults = Normal (Some k) ->
  trim k = k.
Proof.
  intros Hm H. destruct (resolve_some_present _ _ H) as [D ->].
  simpl in Hm. rewrite resolve_present in H. injection H as <-.
  destruct (mainSessionKey D) as [key|]; simpl.
  - destruct (trim key) as [|c e] eqn:E.
    + destruct (normalizeScope (scope D) =? "global"); [reflexivity|].
      now apply agentKey_trimmed.
    + rewrite <- E. apply trim_idem.
  - destruct (normalizeScope (scope D) =? "global"); [reflexivity|].
    now apply agentKey_trimmed.
Qed.


(** C2, as amended: when [defaults.mainSessionKey] is a string that is
    non-empty after trimming, [resolveSnapshotMainSessionKey] returns that
    string with its leading and trailing whitespace removed, whatever
    [scope], [defaultAgentId] and [mainKey] hold; it is the original string
    itself when that string has no surrounding whitespace. *)
Theorem resolve_explicit_key_trimmed
    (D : SessionDefaultsSnapshot) (key : string) :
  mainSessionKey D = Some key ->
  trim key <> "" ->
  resolveSnapshotMainSessionKey (Present D) = Normal (Some (trim key))
  /\ (trim key = key ->
      resolveSnapshotMainSessionKey (Present D) = Normal (mainSessionKey D)).
Proof.
  intros Hkey Hne.
  assert (R : resolveSnapshotMainSessionKey (Present D)
              = Normal (Some (trim key))).
  { rewrite resolve_present, Hkey. simpl.
    destruct (trim key); [contradiction | reflexivity]. }
  split; [exact R|].
  intros Hfix. now rewrite R, Hkey, Hfix.
Qed.

(** C4: for an object whose [mainSessionKey] is absent or blank after
    trimming, [resolveSnapshotMainSessionKey] returns ["global"] when the
    scope, trimmed and lower-cased, is ["global"], and otherwise
    ["agent:" + normalizeAgentId(defaultAgentId) + ":" +
    normalizeMainKey(mainKey)], for arbitrary normalisers. *)
Theorem resolve_derived_key (D : SessionDefaultsSnapshot) :
  (mainSessionKey D = None
   \/ exists key, mainSessionKey D = Some key /\ trim key = "") ->
  resolveSnapshotMainSessionKey (Present D) =
  Normal (Some (if toLowerCase (trim (nullish (scope D) "")) =? "global"
                then "global"
                else "agent:" ++ normalizeAgentId (defaultAgentId D)
                       ++ ":" ++ normalizeMainKey (mainKey D))).
Proof.
  intros [Habsent | [key [Hkey Hblank]]]; rewrite resolve_present.
  - now rewrite Habsent.
  - rewrite Hkey. simpl. now rewrite Hblank.
Qed.

(** C10: a non-null result of [resolveSnapshotMainSessionKey] is a
    non-empty string, given normalisers that return non-empty strings. *)
Theorem resolve_result_nonempty
    (defaults : nullable SessionDefaultsSnapshot) (k : string) :
  (forall raw, normalizeAgentId raw <> "") ->
  (forall raw, normalizeMainKey raw <> "") ->
  resolveSnapshotMainSessionKey defaults = Normal (Some k) ->
  k <> "" /\ (0 < String.length k)%nat.
Proof.
  intros _ _ H. pose proof (resolve_nonempty _ _ H) as Hne.
  split; [exact Hne|]. destruct k; [contradiction | simpl; lia].
Qed.

(** C8: the resolver reports insufficient input through its result and
    never throws: [resolveSnapshotMainSessionKey] returns [null] for [null]
    and for [undefined]; [isMainSessionAlias] returns [false] when its
    value trims to the empty string and when the canonical key resolves to
    [null]; both functions complete normally on every input. *)
Theorem resolver_signals_absence_by_value :
  resolveSnapshotMainSessionKey Null = Normal None
  /\ resolveSnapshotMainSessionKey Undefined = Normal None
  /\ (forall value defaults,
        trim (nullish value "") = "" ->
        isMainSessionAlias value defaults = Normal false)
  /\ (forall value defaults,
        resolveSnapshotMainSessionKey defaults = Normal None ->
        isMainSessionAlias value defaults = Normal false)
  /\ (forall defaults, exists r,
        resolveSnapshotMainSessionKey defaults = Normal r)
  /\ (forall value defaults, exists b,
        isMainSessionAlias value defaults = Normal b).
Proof.
  split; [reflexivity|]. split; [reflexivity|].
  split; [|split; [|split]].
  - intros value defaults Hblank.
    unfold isMainSessionAlias. now rewrite Hblank.
  - intros value defaults Hnull.
    unfold isMainSessionAlias. rewrite Hnull.
    destruct (trim (nullish value "")); reflexivity.
  - apply resolve_returns.
  - intros value defaults. unfold isMainSessionAlias.
    destruct (falsyString (Some (trim (nullish value "")))); [eauto|].
    destruct (resolve_returns defaults) as [[[|c k]|] ->]; cbn [bind]; eauto.
    destruct (toLowerCase _ =? toLowerCase (String c k)); [eauto|].
    destruct (toLowerCase (String c k) =? "global"); eauto.
Qed.

(** C9: [isMainSessionAlias] gives the same answer on a value and on that
    value trimmed and lower-cased. *)
Theorem alias_invariant_under_trim_and_case
    (value : string) (defaults : nullable SessionDefaultsSnapshot) :
  isMainSessionAlias (Some value) defaults
  = isMainSessionAlias (Some (toLowerCase (trim value))) defaults.
Proof.
  unfold isMainSessionAlias. cbn [nullish].
  rewrite trim_toLowerCase, trim_idem, falsyString_toLowerCase.
  destruct (falsyString (Some (trim value))); [reflexivity|].
  now rewrite toLowerCase_idem.
Qed.

(** C7: the canonical key is an alias of itself:
    [isMainSessionAlias(resolve(D), D)] is [true] whenever [resolve(D)] is
    non-null.  The main-key normaliser, whose source is missing, is taken
    with its contract of returning a canonical key, here one that does not
    end in whitespace. *)
Theorem alias_reflexive_on_resolved_key
    (defaults : nullable SessionDefaultsSnapshot) (k : string) :
  trimEnd (normalizeMainKey (optMember mainKey defaults))
    = normalizeMainKey (optMember mainKey defaults) ->
  resolveSnapshotMainSessionKey defaults = Normal (Some k) ->
  isMainSessionAlias (Some k) defaults = Normal true.
Proof.
  intros Hm H. unfold isMainSessionAlias. cbn [nullish].
  rewrite (resolve_trimmed _ _ Hm H), H.
  pose proof (resolve_nonempty _ _ H) as Hne.
  destruct k as [|c k]; [contradiction|].
  cbn [falsyString bind]. now rewrite String.eqb_refl.
Qed.


(** C3: for a snapshot with canonical key [K], [isMainSessionAlias(value)]
    is [true] exactly when [value], trimmed, equals ["global"] up to case
    if [K] lower-cased is ["global"], and otherwise exactly when it equals,
    up to case, [K], ["main"], the normalised main key,
    ["agent:<agentId>:main"] or ["agent:<agentId>:<mainKey>"].  The
    normalisers, whose source is missing, are taken with their contract:
    the agent id and the main key they return are canonical (unchanged by
    lower-casing) and the main key is non-empty. *)
Theorem alias_characterised
    (value : string) (defaults : nullable SessionDefaultsSnapshot)
    (k : string) :
  let agentId := normalizeAgentId (optMember defaultAgentId defaults) in
  let mainKey := normalizeMainKey (optMember mainKey defaults) in
  toLowerCase agentId = agentId ->
  toLowerCase mainKey = mainKey ->
  mainKey <> "" ->
  resolveSnapshotMainSessionKey defaults = Normal (Some k) ->
  isMainSessionAlias (Some value) defaults =
  Normal (if toLowerCase k =? "global"
          then sameIgnoringCase (trim value) "global"
          else sameIgnoringCase (trim value) k
               || sameIgnoringCase (trim value) "main"
               || sameIgnoringCase (trim value) mainKey
               || sameIgnoringCase (trim value) ("agent:" ++ agentId ++ ":main")
               || sameIgnoringCase (trim value)
                    ("agent:" ++ agentId ++ ":" ++ mainKey)).
Proof.
  intros a m Ha Hm Hne H.
  pose proof (resolve_nonempty _ _ H) as Hk.
  unfold isMainSessionAlias, sameIgnoringCase. cbn [nullish].
  rewrite H. fold a. fold m.
  rewrite !toLowerCase_app, Ha, Hm.
  change (toLowerCase "global") with "global".
  change (toLowerCase "main") with "main".
  change (toLowerCase "agent:") with "agent:".
  change (toLowerCase ":main") with ":main".
  change (toLowerCase ":") with ":".
  destruct k as [|c k]; [contradiction|].
  destruct (trim value) as [|r rest]; cbn [falsyString bind].
  - f_equal. destruct m as [|d m]; [contradiction|].
    destruct (toLowerCase (String c k) =? "global"); reflexivity.
  - destruct (toLowerCase (String r rest) =? toLowerCase (String c k)) eqn:E1;
      destruct (toLowerCase (String c k) =? "global") eqn:E2;
      try reflexivity.
    apply String.eqb_eq in E1. rewrite E1, E2. reflexivity.
Qed.


(* =============================================================== *)
(** ** The reconnect orchestrator *)

Lemma callOn_generations method ref cs :
  (forall c, myGeneration (method c) = myGeneration c) ->
  List.map myGeneration (callOn method ref cs) = List.map myGeneration cs.
Proof.
  intros Hkeep. revert ref.
  induction cs as [|c cs IH]; intros [|ref]; simpl; try reflexivity.
  - now rewrite Hkeep.
  - now rewrite IH.
Qed.

Lemma connectGateway_generations (g : Gateway) :
  generations (connectGateway g)
  = (generations g ++ [S (currentGeneration (orchestrator g))])%list.
Proof.
  unfold generations, connectGateway; simpl.
  rewrite callOn_generations by reflexivity.
  rewrite List.map_app; simpl.
  destruct (activeClient (orchestrator g)); [|reflexivity].
  now rewrite callOn_generations.
Qed.

Lemma connectGateway_generation (g : Gateway) :
  currentGeneration (orchestrator (connectGateway g))
  = S (currentGeneration (orchestrator g)).
Proof. reflexivity. Qed.

Lemma connectGateway_host (g : Gateway) : host (connectGateway g) = host g.
Proof. reflexivity. Qed.

Lemma latestClient_connectGateway (g : Gateway) :
  latestClient (connectGateway g) = List.length (generations g).
Proof.
  unfold latestClient.
  rewrite <- (List.length_map myGeneration).
  change (List.map myGeneration (clients (orchestrator (connectGateway g))))
    with (generations (connectGateway g)).
  rewrite connectGateway_generations.
  rewrite List.length_app; simpl. lia.
Qed.

Lemma invoke_by_generation ref cb (g : Gateway) generation :
  nth_error (generations g) ref = Some generation ->
  invoke ref cb g =
  if (generation =? currentGeneration (orchestrator g))%nat
  then {| orchestrator := orchestrator g;
          host := mutateHost cb (host g);
          triggered := (triggered g ++ loadersOf cb)%list |}
  else g.
Proof.
  unfold invoke, generations. rewrite List.nth_error_map.
  destruct (nth_error (clients (orchestrator g)) ref); simpl; [|discriminate].
  now intros [= ->].
Qed.

(** A callback of a client bound to an older generation is dropped. *)
Lemma invoke_stale ref cb (g : Gateway) generation :
  nth_error (generations g) ref = Some generation ->
  generation <> currentGeneration (orchestrator g) ->
  invoke ref cb g = g.
Proof.
  intros Hgen Hold. rewrite (invoke_by_generation _ _ _ _ Hgen).
  now apply Nat.eqb_neq in Hold as ->.
Qed.

(** A callback that passes the generation check mutates the host. *)
Lemma invoke_current ref cb (g : Gateway) :
  boundToCurrentGeneration ref g = true ->
  host (invoke ref cb g) = mutateHost cb (host g).
Proof.
  unfold boundToCurrentGeneration, invoke.
  destruct (nth_error (clients (orchestrator g)) ref); [|discriminate].
  now intros ->.
Qed.

(** C1: after two [connect] calls in a row, any of the four callbacks
    invoked on the first client leaves the host (indeed the whole gateway)
    as it is, and the same callback invoked on the second client mutates
    the host as that callback specifies. *)
Theorem stale_client_suppressed_current_client_applied
    (g : Gateway) (cb : Callback) :
  let first := connectGateway g in
  let second := connectGateway first in
  host (invoke (latestClient first) cb second) = host second
  /\ invoke (latestClient first) cb second = second
  /\ host (invoke (latestClient second) cb second)
     = mutateHost cb (host second).
Proof.
  intros first second.
  assert (Hgens : generations second
                  = (generations g
                     ++ [S (currentGeneration (orchestrator g));
                         S (S (currentGeneration (orchestrator g)))])%list).
  { unfold second, first. rewrite !connectGateway_generations.
    rewrite <- List.app_assoc. reflexivity. }
  assert (Hfirst : latestClient first = List.length (generations g))
    by apply latestClient_connectGateway.
  assert (Hsecond : latestClient second = S (List.length (generations g))).
  { unfold second. rewrite latestClient_connectGateway.
    unfold first. rewrite connectGateway_generations, List.length_app.
    simpl. lia. }
  assert (Hnow : currentGeneration (orchestrator second)
                 = S (S (currentGeneration (orchestrator g))))
    by reflexivity.
  assert (Hstale : invoke (latestClient first) cb second = second).
  { apply invoke_stale
      with (generation := S (currentGeneration (orchestrator g))).
    - rewrite Hfirst, Hgens.
      rewrite List.nth_error_app2, Nat.sub_diag by lia. reflexivity.
    - rewrite Hnow. lia. }
  split; [now rewrite Hstale|]. split; [exact Hstale|].
  rewrite (invoke_by_generation
             _ _ _ (S (S (currentGeneration (orchestrator g))))).
  - now rewrite Hnow, Nat.eqb_refl.
  - rewrite Hsecond, Hgens.
    rewrite List.nth_error_app2 by lia.
    replace (S (List.length (generations g)) - List.length (generations g))
      with 1 by lia.
    reflexivity.
Qed.

(** C5: a gap notification that passes the generation check sets
    [host.lastError] to
    ["event gap detected (expected seq E, got R); refresh recommended"],
    and a close notification that passes it sets [host.lastError] to
    ["disconnected (CODE): REASON"], with ["no reason"] for an empty or
    absent reason. *)
Theorem gap_and_close_messages
    (g : Gateway) (ref : nat) (gap : GapInfo) (close : CloseInfo) :
  boundToCurrentGeneration ref g = true ->
  lastError (host (invoke ref (OnGap gap) g))
  = Some ("event gap detected (expected seq "
          ++ numberToString (expected gap) ++ ", got "
          ++ numberToString (received gap) ++ "); refresh recommended")
  /\ lastError (host (invoke ref (OnClose close) g))
     = Some ("disconnected (" ++ numberToString (code close) ++ "): "
             ++ match reason close with
                | None | Some EmptyString => "no reason"
                | Some (String _ _ as given) => given
                end).
Proof.
  intros Hcurrent. rewrite !invoke_current by exact Hcurrent.
  split; [reflexivity|].
  simpl. unfold reasonOrDefault.
  destruct (reason close) as [[|c r]|]; reflexivity.
Qed.

(** C6: a hello that passes the generation check sets [host.connected];
    and when [hello.snapshot.sessionDefaults] is present and resolves to a
    key that differs from [host.sessionKey], then [host.sessionKey],
    [host.settings.sessionKey] and [host.settings.lastActiveSessionKey]
    all become the resolved key. *)
Theorem hello_connects_and_normalises_session_key
    (g : Gateway) (ref : nat) (hello : Hello) :
  boundToCurrentGeneration ref g = true ->
  let after := host (invoke ref (OnHello hello) g) in
  connected after = true
  /\ (forall defaults resolved,
        helloSessionDefaults hello = Some defaults ->
        resolveSnapshotMainSessionKey (Present defaults)
          = Normal (Some resolved) ->
        resolved <> sessionKey (host g) ->
        sessionKey after = resolved
        /\ settingsSessionKey (settings after) = resolved
        /\ lastActiveSessionKey (settings after) = resolved).
Proof.
  intros Hcurrent after. unfold after.
  rewrite invoke_current by exact Hcurrent.
  cbn [mutateHost]. unfold onHello. split.
  - destruct (helloSessionDefaults hello) as [defaults|]; [|reflexivity].
    destruct (resolveSnapshotMainSessionKey (Present defaults))
      as [[resolved|]|]; try reflexivity.
    cbn [sessionKey]. destruct (resolved =? sessionKey (host g)); reflexivity.
  - intros defaults resolved -> -> Hdiffers. cbn [sessionKey].
    apply String.eqb_neq in Hdiffers. rewrite Hdiffers. now repeat split.
Qed.

(* =============================================================== *)
(** ** Further properties of the resolver *)

(** The bare alias ["main"], in any letter case and with any surrounding
    blanks, is accepted for every snapshot whose canonical key is not
    ["global"], and rejected when it is, whatever the normalisers return. *)
Theorem bare_main_alias_unless_global
    (value : string) (defaults : nullable SessionDefaultsSnapshot)
    (k : string) :
  toLowerCase (trim value) = "main" ->
  resolveSnapshotMainSessionKey defaults = Normal (Some k) ->
  isMainSessionAlias (Some value) defaults
  = Normal (negb (toLowerCase k =? "global")).
Proof.
  intros Hmain H. pose proof (resolve_nonempty _ _ H) as Hk.
  unfold isMainSessionAlias. cbn [nullish]. rewrite H.
  destruct (trim value) as [|r rest]; [discriminate Hmain|].
  destruct k as [|c k]; [contradiction|].
  cbn [falsyString bind]. rewrite Hmain.
  destruct (toLowerCase (String c k) =? "global") eqn:Eglobal.
  - apply String.eqb_eq in Eglobal. rewrite Eglobal. reflexivity.
  - destruct ("main" =? toLowerCase (String c k)); reflexivity.
Qed.

(** The canonical key carries no leading or trailing whitespace, provided
    the main key returned by [normalizeMainKey] does not end in
    whitespace. *)
Theorem resolved_key_has_no_surrounding_whitespace
    (defaults : nullable SessionDefaultsSnapshot) (k : string) :
  trimEnd (normalizeMainKey (optMember mainKey defaults))
    = normalizeMainKey (optMember mainKey defaults) ->
  resolveSnapshotMainSessionKey defaults = Normal (Some k) ->
  trimStart k = k /\ trimEnd k = k.
Proof.
  intros Hm H. pose proof (resolve_trimmed _ _ Hm H) as Htrim.
  assert (Hstart : trimStart k = k).
  { rewrite <- Htrim at 1. unfold trim.
    rewrite (trimStart_trimEnd (trimStart k) (trimStart_idem k)).
    exact Htrim. }
  split; [exact Hstart|].
  unfold trim in Htrim. now rewrite Hstart in Htrim.
Qed.

(** The canonical key is a fixed point of the resolver: sent back as the
    explicit [mainSessionKey] of any snapshot, it resolves to itself. *)
Theorem resolved_key_resolves_to_itself
    (defaults : nullable SessionDefaultsSnapshot) (k : string)
    (agent main scoped : option string) :
  trimEnd (normalizeMainKey (optMember mainKey defaults))
    = normalizeMainKey (optMember mainKey defaults) ->
  resolveSnapshotMainSessionKey defaults = Normal (Some k) ->
  resolveSnapshotMainSessionKey
    (Present {| defaultAgentId := agent; mainKey := main;
                mainSessionKey := Some k; scope := scoped |})
  = Normal (Some k).
Proof.
  intros Hm H. rewrite resolve_present. cbn [mainSessionKey option_map].
  rewrite (resolve_trimmed _ _ Hm H).
  pose proof (resolve_nonempty _ _ H) as Hk.
  destruct k; [contradiction | reflexivity].
Qed.

(** The scope is read up to letter case and surrounding blanks: a snapshot
    resolves as the one whose scope is trimmed and lower-cased. *)
Theorem resolve_reads_scope_up_to_case_and_blanks
    (agent main explicit : option string) (rawScope : string) :
  resolveSnapshotMainSessionKey
    (Present {| defaultAgentId := agent; mainKey := main;
                mainSessionKey := explicit; scope := Some rawScope |})
  = resolveSnapshotMainSessionKey
      (Present {| defaultAgentId := agent; mainKey := main;
                  mainSessionKey := explicit;
                  scope := Some (toLowerCase (trim rawScope)) |}).
Proof.
  rewrite !resolve_present. cbn [mainSessionKey scope defaultAgentId mainKey].
  unfold normalizeScope. cbn [nullish].
  now rewrite trim_toLowerCase, trim_idem, toLowerCase_idem.
Qed.

Lemma resolve_present_explicit (D : SessionDefaultsSnapshot) (key : string) :
  mainSessionKey D = Some key ->
  trim key <> "" ->
  resolveSnapshotMainSessionKey (Present D) = Normal (Some (trim key)).
Proof.
  intros Hkey Hne. rewrite resolve_present, Hkey. simpl.
  destruct (trim key); [contradiction | reflexivity].
Qed.

(** The alias test reads an explicit [mainSessionKey] up to letter case and
    surrounding blanks. *)
Theorem alias_reads_explicit_key_up_to_case_and_blanks
    (value : option string) (agent main scoped : option string)
    (explicit : string) :
  isMainSessionAlias value
    (Present {| defaultAgentId := agent; mainKey := main;
                mainSessionKey := Some explicit; scope := scoped |})
  = isMainSessionAlias value
      (Present {| defaultAgentId := agent; mainKey := main;
                  mainSessionKey := Some (toLowerCase (trim explicit));
                  scope := scoped |}).
Proof.
  unfold isMainSessionAlias.
  destruct (falsyString (Some (trim (nullish value "")))); [reflexivity|].
  destruct (trim explicit =? "") eqn:E.
  - apply String.eqb_eq in E.
    rewrite !resolve_present. cbn [mainSessionKey option_map].
    now rewrite trim_toLowerCase, trim_idem, E.
  - apply String.eqb_neq in E.
    assert (Elow : trim (toLowerCase (trim explicit)) <> "").
    { rewrite trim_toLowerCase, trim_idem. now rewrite toLowerCase_empty. }
    rewrite (resolve_present_explicit
               {| defaultAgentId := agent; mainKey := main;
                  mainSessionKey := Some explicit; scope := scoped |}
               explicit eq_refl E).
    rewrite (resolve_present_explicit
               {| defaultAgentId := agent; mainKey := main;
                  mainSessionKey := Some (toLowerCase (trim explicit));
                  scope := scoped |}
               (toLowerCase (trim explicit)) eq_refl Elow).
    rewrite trim_toLowerCase, trim_idem.
    destruct (trim explicit) as [|c rest]; [contradiction|].
    cbn [bind toLowerCase optMember defaultAgentId mainKey].
    now rewrite toLowerCaseUnit_idem, toLowerCase_idem.
Qed.

End Model.

(* ================================================================= *)
(** ** The theorems on the inputs of the test suites *)

Lemma sampleNormalizeAgentId_nonempty (raw : option string) :
  sampleNormalizeAgentId raw <> "".
Proof.
  unfold sampleNormalizeAgentId.
  destruct (trim (nullish raw "")); discriminate.
Qed.

Lemma sampleNormalizeMainKey_nonempty (raw : option string) :
  sampleNormalizeMainKey raw <> "".
Proof.
  unfold sampleNormalizeMainKey.
  destruct (trim (nullish raw "")); discriminate.
Qed.

(** [session-defaults.node.test.ts], case by case. *)
Example test_returns_explicit_key :
  resolveSnapshotMainSessionKey sampleNormalizeAgentId sampleNormalizeMainKey
      (Present explicitDefaults)
  = Normal (Some "agent:denver-move:main-chat").
Proof. reflexivity. Qed.

Example test_derives_canonical_key :
  resolveSnapshotMainSessionKey sampleNormalizeAgentId sampleNormalizeMainKey
      (Present derivedDefaults)
  = Normal (Some "agent:denver-move:heartbeat").
Proof. reflexivity. Qed.

Example test_returns_global :
  resolveSnapshotMainSessionKey sampleNormalizeAgentId sampleNormalizeMainKey
      (Present globalDefaults) = Normal (Some "global").
Proof. reflexivity. Qed.

Example test_aliases :
  isMainSessionAlias sampleNormalizeAgentId sampleNormalizeMainKey
      (Some "main") (Present derivedDefaults) = Normal true
  /\ isMainSessionAlias sampleNormalizeAgentId sampleNormalizeMainKey
      (Some "heartbeat") (Present derivedDefaults) = Normal true
  /\ isMainSessionAlias sampleNormalizeAgentId sampleNormalizeMainKey
      (Some "agent:denver-move:main") (Present derivedDefaults)
     = Normal true
  /\ isMainSessionAlias sampleNormalizeAgentId sampleNormalizeMainKey
      (Some "agent:denver-move:heartbeat")
       (Present derivedDefaults) = Normal true
  /\ isMainSessionAlias sampleNormalizeAgentId sampleNormalizeMainKey
      (Some "agent:denver-move:discord:group:dev")
       (Present derivedDefaults) = Normal false.
Proof. repeat split. Qed.

(** C2, the claim as written fails: an explicit key with surrounding blanks
    is a string that is non-empty after trimming, and the resolver does not
    return it verbatim. *)
Lemma resolve_explicit_key_not_verbatim :
  mainSessionKey paddedDefaults = Some " agent:denver-move:main-chat "
  /\ trim " agent:denver-move:main-chat " <> ""
  /\ resolveSnapshotMainSessionKey sampleNormalizeAgentId sampleNormalizeMainKey
      (Present paddedDefaults)
     = Normal (Some "agent:denver-move:main-chat")
  /\ resolveSnapshotMainSessionKey sampleNormalizeAgentId sampleNormalizeMainKey
      (Present paddedDefaults)
     <> Normal (mainSessionKey paddedDefaults).
Proof.
  split; [reflexivity|]. split; [discriminate|].
  split; [reflexivity | discriminate].
Qed.

Lemma resolve_explicit_key_trimmed_witness :
  resolveSnapshotMainSessionKey sampleNormalizeAgentId sampleNormalizeMainKey
      (Present paddedDefaults)
  = Normal (Some "agent:denver-move:main-chat")
  /\ resolveSnapshotMainSessionKey sampleNormalizeAgentId sampleNormalizeMainKey
      (Present explicitDefaults)
     = Normal (mainSessionKey explicitDefaults).
Proof.
  split.
  - exact (proj1 (resolve_explicit_key_trimmed
                    sampleNormalizeAgentId sampleNormalizeMainKey
                    paddedDefaults " agent:denver-move:main-chat "
                    eq_refl ltac:(discriminate))).
  - exact (proj2 (resolve_explicit_key_trimmed
                    sampleNormalizeAgentId sampleNormalizeMainKey
                    explicitDefaults "agent:denver-move:main-chat"
                    eq_refl ltac:(discriminate)) eq_refl).
Defined.

Lemma resolve_derived_key_witness :
  resolveSnapshotMainSessionKey sampleNormalizeAgentId sampleNormalizeMainKey
      (Present derivedDefaults)
  = Normal (Some "agent:denver-move:heartbeat")
  /\ resolveSnapshotMainSessionKey sampleNormalizeAgentId sampleNormalizeMainKey
      (Present globalDefaults) = Normal (Some "global").
Proof.
  split.
  - exact (resolve_derived_key sampleNormalizeAgentId sampleNormalizeMainKey
             derivedDefaults (or_introl eq_refl)).
  - exact (resolve_derived_key sampleNormalizeAgentId sampleNormalizeMainKey
             globalDefaults (or_introl eq_refl)).
Defined.

Lemma resolve_result_nonempty_witness :
  "agent:denver-move:heartbeat" <> ""
  /\ (0 < String.length "agent:denver-move:heartbeat")%nat.
Proof.
  apply (resolve_result_nonempty sampleNormalizeAgentId sampleNormalizeMainKey
           (Present derivedDefaults) "agent:denver-move:heartbeat"
           sampleNormalizeAgentId_nonempty sampleNormalizeMainKey_nonempty).
  reflexivity.
Defined.

Lemma resolver_signals_absence_by_value_witness :
  resolveSnapshotMainSessionKey sampleNormalizeAgentId sampleNormalizeMainKey
      Null = Normal None
  /\ resolveSnapshotMainSessionKey sampleNormalizeAgentId sampleNormalizeMainKey
      Undefined = Normal None
  /\ isMainSessionAlias sampleNormalizeAgentId sampleNormalizeMainKey
      (Some "   ") (Present derivedDefaults) = Normal false
  /\ isMainSessionAlias sampleNormalizeAgentId sampleNormalizeMainKey
      None (Present derivedDefaults) = Normal false
  /\ isMainSessionAlias sampleNormalizeAgentId sampleNormalizeMainKey
      (Some "main") Null = Normal false
  /\ isMainSessionAlias sampleNormalizeAgentId sampleNormalizeMainKey
      (Some "main") Undefined = Normal false.
Proof.
  destruct (resolver_signals_absence_by_value
              sampleNormalizeAgentId sampleNormalizeMainKey)
    as (Hnull & Hundefined & Hblank & Hunresolved & _).
  split; [exact Hnull|]. split; [exact Hundefined|].
  split; [exact (Hblank (Some "   ") (Present derivedDefaults) eq_refl)|].
  split; [exact (Hblank None (Present derivedDefaults) eq_refl)|].
  split; [exact (Hunresolved (Some "main") Null Hnull)|].
  exact (Hunresolved (Some "main") Undefined Hundefined).
Defined.

Lemma alias_reflexive_on_resolved_key_witness :
  isMainSessionAlias sampleNormalizeAgentId sampleNormalizeMainKey
      (Some "agent:denver-move:heartbeat") (Present derivedDefaults)
  = Normal true.
Proof.
  exact (alias_reflexive_on_resolved_key
           sampleNormalizeAgentId sampleNormalizeMainKey
           (Present derivedDefaults) "agent:denver-move:heartbeat"
           eq_refl eq_refl).
Defined.

Lemma alias_characterised_witness :
  isMainSessionAlias sampleNormalizeAgentId sampleNormalizeMainKey
      (Some " Heartbeat ") (Present derivedDefaults) = Normal true
  /\ isMainSessionAlias sampleNormalizeAgentId sampleNormalizeMainKey
      (Some "agent:denver-move:discord:group:dev")
       (Present derivedDefaults) = Normal false
  /\ isMainSessionAlias sampleNormalizeAgentId sampleNormalizeMainKey
      (Some "main") (Present globalDefaults) = Normal false
  /\ isMainSessionAlias sampleNormalizeAgentId sampleNormalizeMainKey
      (Some "GLOBAL") (Present globalDefaults) = Normal true.
Proof.
  split; [|split; [|split]].
  - exact (alias_characterised sampleNormalizeAgentId sampleNormalizeMainKey
             " Heartbeat " (Present derivedDefaults)
             "agent:denver-move:heartbeat"
             eq_refl eq_refl ltac:(discriminate) eq_refl).
  - exact (alias_characterised sampleNormalizeAgentId sampleNormalizeMainKey
             "agent:denver-move:discord:group:dev" (Present derivedDefaults)
             "agent:denver-move:heartbeat"
             eq_refl eq_refl ltac:(discriminate) eq_refl).
  - exact (alias_characterised sampleNormalizeAgentId sampleNormalizeMainKey
             "main" (Present globalDefaults) "global"
             eq_refl eq_refl ltac:(discriminate) eq_refl).
  - exact (alias_characterised sampleNormalizeAgentId sampleNormalizeMainKey
             "GLOBAL" (Present globalDefaults) "global"
             eq_refl eq_refl ltac:(discriminate) eq_refl).
Defined.

(** [app-gateway.node.test.ts]: two connects in a row, the second client is
    the current one. *)
Example test_ignores_stale_onGap :
  let reconnected : @Gateway string :=
    connectGateway (connectGateway (freshGateway createHost)) in
  let afterStale :=
    invoke sampleNormalizeAgentId sampleNormalizeMainKey 0
      (OnGap {| expected := 10; received := 13 |}) reconnected in
  let afterActive :=
    invoke sampleNormalizeAgentId sampleNormalizeMainKey 1
      (OnGap {| expected := 20; received := 24 |}) afterStale in
  lastError (host afterStale) = None
  /\ lastError (host afterActive)
     = Some "event gap detected (expected seq 20, got 24); refresh recommended".
Proof. split; reflexivity. Qed.

Example test_ignores_stale_onEvent :
  let reconnected : @Gateway string :=
    connectGateway (connectGateway (freshGateway createHost)) in
  let presence (who : string) :=
    OnEvent {| event := "presence"; payload := Some who; seq := None |} in
  let afterStale :=
    invoke sampleNormalizeAgentId sampleNormalizeMainKey 0
      (presence "stale") reconnected in
  let afterActive :=
    invoke sampleNormalizeAgentId sampleNormalizeMainKey 1
      (presence "active") afterStale in
  List.length (eventLogBuffer (host afterStale)) = 0
  /\ List.map event (eventLogBuffer (host afterActive)) = ["presence"].
Proof. split; reflexivity. Qed.

Example test_ignores_stale_onClose :
  let reconnected : @Gateway string :=
    connectGateway (connectGateway (freshGateway createHost)) in
  let closed := OnClose {| code := 1005; reason := Some "" |} in
  let afterStale :=
    invoke sampleNormalizeAgentId sampleNormalizeMainKey 0 closed reconnected in
  let afterActive :=
    invoke sampleNormalizeAgentId sampleNormalizeMainKey 1 closed afterStale in
  lastError (host afterStale) = None
  /\ lastError (host afterActive) = Some "disconnected (1005): no reason".
Proof. split; reflexivity. Qed.

Lemma gap_and_close_messages_witness :
  let reconnected : @Gateway string :=
    connectGateway (connectGateway (freshGateway createHost)) in
  lastError (host (invoke sampleNormalizeAgentId sampleNormalizeMainKey 1
                     (OnGap {| expected := 20; received := 24 |}) reconnected))
  = Some "event gap detected (expected seq 20, got 24); refresh recommended"
  /\ lastError (host (invoke sampleNormalizeAgentId sampleNormalizeMainKey 1
                        (OnClose {| code := 1005; reason := None |})
                        reconnected))
     = Some "disconnected (1005): no reason".
Proof.
  exact (gap_and_close_messages sampleNormalizeAgentId sampleNormalizeMainKey
           (connectGateway (connectGateway (freshGateway createHost))) 1
           {| expected := 20; received := 24 |}
           {| code := 1005; reason := None |} eq_refl).
Defined.

Lemma hello_connects_and_normalises_session_key_witness :
  let connectedOnce : @Gateway string :=
    connectGateway (freshGateway (applySessionKey "agent:denver-move:main"
                                    createHost)) in
  let hello :=
    {| snapshot := Some {| sessionDefaults := Some derivedDefaults |} |} in
  let after :=
    host (invoke sampleNormalizeAgentId sampleNormalizeMainKey 0
            (OnHello hello) connectedOnce) in
  connected after = true
  /\ sessionKey after = "agent:denver-move:heartbeat"
  /\ settingsSessionKey (settings after) = "agent:denver-move:heartbeat"
  /\ lastActiveSessionKey (settings after) = "agent:denver-move:heartbeat".
Proof.
  intros connectedOnce hello after.
  destruct (hello_connects_and_normalises_session_key
              sampleNormalizeAgentId sampleNormalizeMainKey
              connectedOnce 0 hello eq_refl) as [Hconnected Hkey].
  split; [exact Hconnected|].
  exact (Hkey derivedDefaults "agent:denver-move:heartbeat"
           eq_refl eq_refl ltac:(discriminate)).
Defined.

(* ================================================================= *)
(** ** The msgvault plugin: configuration *)


Lemma mathFloor_integer (n : Z) :
  mathFloor (QArith_base.inject_Z n) = n.
Proof.
  unfold mathFloor, QArith_base.inject_Z, Qround.Qfloor.
  apply Z.div_1_r.
Qed.

Lemma clampTimeoutMs_range (value : JsValue) :
  (MIN_TIMEOUT_MS <= clampTimeoutMs value <= MAX_TIMEOUT_MS)%Z.
Proof.
  unfold clampTimeoutMs, MIN_TIMEOUT_MS, MAX_TIMEOUT_MS, DEFAULT_TIMEOUT_MS.
  destruct (finiteNumber value); lia.
Qed.


(** With a fallback between 1 and [max], [normalizePositiveInt] returns an
    integer between 1 and [max] for every value, and returns an integer
    that already lies in that range as it is. *)
Theorem normalizePositiveInt_range (value : JsValue) (fallback max : Z) :
  (1 <= fallback <= max)%Z ->
  (1 <= normalizePositiveInt value fallback max <= max)%Z
  /\ (forall n : Z,
        (1 <= n <= max)%Z ->
        normalizePositiveInt (VNumber (Finite (QArith_base.inject_Z n)))
          fallback max = n).
Proof.
  intros Hfallback. split.
  - unfold normalizePositiveInt.
    destruct (finiteNumber value) as [number|]; [|lia].
    cbv zeta. destruct (mathFloor number <? 1)%Z eqn:E; [lia|].
    apply Z.ltb_ge in E. lia.
  - intros n Hn. unfold normalizePositiveInt. cbn [finiteNumber].
    rewrite mathFloor_integer.
    destruct (n <? 1)%Z eqn:E; [apply Z.ltb_lt in E; lia | lia].
Qed.

Lemma lastUnit_dropTrailing (drop : ascii -> bool) (s : string) (c : ascii) :
  lastUnit (dropTrailing drop s) = Some c -> drop c = false.
Proof.
  induction s as [|a rest IH]; cbn [dropTrailing]; [discriminate|].
  destruct (dropTrailing drop rest) as [|b kept].
  - destruct (drop a) eqn:E; [discriminate|]. now intros [= <-].
  - exact IH.
Qed.

Lemma normalizeBaseUrl_last (value : JsValue) :
  lastUnit (normalizeBaseUrl value) <> Some "/"%char.
Proof.
  unfold normalizeBaseUrl.
  destruct (stringValue value) as [text|]; [|discriminate].
  destruct (falsyString (Some (trim text))); [discriminate|].
  intros H. apply lastUnit_dropTrailing in H. discriminate H.
Qed.

(** The base URL [normalizeBaseUrl] returns never ends in a slash, so
    [requestJson] can append one. *)
Theorem normalizeBaseUrl_never_ends_in_slash (value : JsValue) :
  lastUnit (normalizeBaseUrl value) <> Some "/"%char.
Proof. apply normalizeBaseUrl_last. Qed.

Lemma normalizeAccount_some (value : JsValue) (account : string) :
  normalizeAccount value = Some account ->
  account <> "" /\ trim account = account.
Proof.
  unfold normalizeAccount.
  destruct (stringValue value) as [text|]; [|discriminate].
  cbv zeta. destruct (trim text) as [|c rest] eqn:E; [discriminate|].
  cbn [falsyString]. intros [= <-]. split; [discriminate|].
  rewrite <- E. apply trim_idem.
Qed.

(** Whatever the raw plugin configuration, [resolveConfig] returns a usable
    one: a timeout within the limits, a base URL that does not end in a
    slash, the name of an environment variable that is non-empty and
    trimmed, a default account that is non-empty and trimmed when there is
    one, and [allowSync] set only by the boolean [true]. *)
Theorem resolveConfig_usable (raw : JsValue) :
  let cfg := resolveConfig raw in
  (MIN_TIMEOUT_MS <= timeoutMs cfg <= MAX_TIMEOUT_MS)%Z
  /\ lastUnit (baseUrl cfg) <> Some "/"%char
  /\ apiKeyEnv cfg <> "" /\ trim (apiKeyEnv cfg) = apiKeyEnv cfg
  /\ (forall account, defaultAccount cfg = Some account ->
        account <> "" /\ trim account = account)
  /\ (allowSync cfg = true <->
      exists fields, raw = VObject fields
                     /\ lookupField fields "allowSync" = VBoolean true).
Proof.
  cbv zeta. unfold resolveConfig. cbn [timeoutMs baseUrl apiKeyEnv
                                         defaultAccount allowSync].
  split; [apply clampTimeoutMs_range|].
  split; [apply normalizeBaseUrl_last|].
  split; [|split; [|split]].
  - destruct (stringValue _) as [envName|]; [|discriminate].
    destruct (trim envName); discriminate.
  - destruct (stringValue _) as [envName|]; [|reflexivity].
    destruct (trim envName) as [|c rest] eqn:E; [reflexivity|].
    cbn [falsyString]. rewrite <- E. apply trim_idem.
  - intros account. apply normalizeAccount_some.
  - split.
    + destruct raw as [| | | | | |fields]; cbn [lookupField]; try discriminate.
      destruct (lookupField fields "allowSync") as [| |[|]| | | |] eqn:E;
        try discriminate.
      intros _. exists fields. now split.
    + intros [fields [-> Hfield]]. now rewrite Hfield.
Qed.

(* ================================================================= *)
(** ** The msgvault plugin: retries *)

Lemma parseRetryAfterMs_nonnegative platform now value (ms : Z) :
  parseRetryAfterMs platform now value = Some ms -> (0 <= ms)%Z.
Proof.
  unfold parseRetryAfterMs.
  destruct (falsyString value); [discriminate|]. cbv zeta.
  destruct (falsyString (Some (trim (nullish value "")))); [discriminate|].
  destruct (parseInt10 platform _) as [seconds|].
  - destruct (0 <=? seconds)%Z eqn:E.
    + apply Z.leb_le in E. intros [= <-]. lia.
    + destruct (dateParse platform _); [|discriminate]. intros [= <-]. lia.
  - destruct (dateParse platform _); [|discriminate]. intros [= <-]. lia.
Qed.

Lemma backoff_positive (attempt : Z) :
  (0 < BASE_RETRY_DELAY_MS * 2 ^ Z.max 0 (attempt - 1))%Z.
Proof.
  unfold BASE_RETRY_DELAY_MS.
  assert (0 < 2 ^ Z.max 0 (attempt - 1))%Z by (apply Z.pow_pos_nonneg; lia).
  lia.
Qed.

Lemma computeRetryDelayMs_range platform now retryAfter (attempt : Z) :
  (0 <= computeRetryDelayMs platform now retryAfter attempt
   <= MAX_RETRY_DELAY_MS)%Z.
Proof.
  unfold computeRetryDelayMs.
  destruct (parseRetryAfterMs platform now retryAfter) as [ms|] eqn:E.
  - apply parseRetryAfterMs_nonnegative in E.
    unfold MAX_RETRY_DELAY_MS. lia.
  - pose proof (backoff_positive attempt). cbv zeta.
    unfold MAX_RETRY_DELAY_MS. lia.
Qed.

(** The delay before a retry is never negative and never above
    [MAX_RETRY_DELAY_MS], whatever the [Retry-After] header holds, however
    the platform parses it and whatever the attempt number. *)
Theorem computeRetryDelayMs_bounded
    (platform : Platform) (now : Z) (retryAfter : option string)
    (attempt : Z) :
  (0 <= computeRetryDelayMs platform now retryAfter attempt
   <= MAX_RETRY_DELAY_MS)%Z.
Proof. apply computeRetryDelayMs_range. Qed.

(** Without a [Retry-After] header the delay grows with the attempt number
    (it doubles up to the cap), and a later attempt never waits less than an
    earlier one. *)
Theorem computeRetryDelayMs_backoff_monotone
    (platform : Platform) (now : Z) (attempt later : Z) :
  (attempt <= later)%Z ->
  (computeRetryDelayMs platform now None attempt
   <= computeRetryDelayMs platform now None later)%Z
  /\ (1 <= attempt ->
      computeRetryDelayMs platform now None attempt
      = Z.min MAX_RETRY_DELAY_MS (BASE_RETRY_DELAY_MS * 2 ^ (attempt - 1)))%Z.
Proof.
  intros Hle. unfold computeRetryDelayMs. cbn [parseRetryAfterMs falsyString].
  split.
  - assert (2 ^ Z.max 0 (attempt - 1) <= 2 ^ Z.max 0 (later - 1))%Z
      by (apply Z.pow_le_mono_r; lia).
    unfold BASE_RETRY_DELAY_MS, MAX_RETRY_DELAY_MS. lia.
  - intros Hattempt. now rewrite Z.max_r by lia.
Qed.

Lemma requestAttempts_invariant platform clock fetch keyEnv method pathname
    (remaining : nat) (attempt : Z) :
  (1 <= remaining)%nat ->
  (attempt + Z.of_nat remaining = MAX_REQUEST_ATTEMPTS + 1)%Z ->
  let run :=
    requestAttempts platform clock fetch keyEnv method pathname
      remaining attempt in
  (fetches run <= remaining)%nat
  /\ fetches run = S (List.length (sleeps run))
  /\ Forall (fun ms => 0 <= ms <= MAX_RETRY_DELAY_MS)%Z (sleeps run)
  /\ (forall message, result run <> AttemptsExhausted message)
  /\ (forall payload, result run = Returned payload ->
      exists response,
        fetch (attempt + Z.of_nat (fetches run) - 1)%Z = FetchResolved response
        /\ responseOk response = true
        /\ body response = payload).
Proof.
  revert attempt.
  induction remaining as [|remaining IH]; intros attempt Hpos Hsum; [lia|].
  cbn [requestAttempts]. cbv zeta.
  assert (Hdelay : forall header,
             (0 <= Z.max 0 (computeRetryDelayMs platform (clock attempt)
                              header attempt) <= MAX_RETRY_DELAY_MS)%Z).
  { intros header.
    pose proof (computeRetryDelayMs_range platform (clock attempt)
                  header attempt). lia. }
  assert (Hcontinue :
            (attempt <? MAX_REQUEST_ATTEMPTS)%Z = true ->
            (1 <= remaining)%nat
            /\ (attempt + 1 + Z.of_nat remaining
                = MAX_REQUEST_ATTEMPTS + 1)%Z).
  { intros Hlt. apply Z.ltb_lt in Hlt. lia. }
  assert (Hstep : forall ms,
             (attempt <? MAX_REQUEST_ATTEMPTS)%Z = true ->
             (0 <= Z.max 0 ms <= MAX_RETRY_DELAY_MS)%Z ->
             let run :=
               afterFetch
                 (afterSleep ms
                    (requestAttempts platform clock fetch keyEnv method
                       pathname remaining (attempt + 1))) in
             (fetches run <= S remaining)%nat
             /\ fetches run = S (List.length (sleeps run))
             /\ Forall (fun ms => 0 <= ms <= MAX_RETRY_DELAY_MS)%Z (sleeps run)
             /\ (forall message, result run <> AttemptsExhausted message)
             /\ (forall payload, result run = Returned payload ->
                 exists response,
                   fetch (attempt + Z.of_nat (fetches run) - 1)%Z
                     = FetchResolved response
                   /\ responseOk response = true
                   /\ body response = payload)).
  { intros ms Hlt Hms. destruct (Hcontinue Hlt) as [Hrem Hnext].
    destruct (IH (attempt + 1)%Z Hrem Hnext) as (Hf & Hs & Hall & Hex & Hret).
    cbv zeta. cbn [afterFetch afterSleep fetches sleeps result List.length].
    split; [lia|]. split; [now rewrite Hs|].
    split; [constructor; assumption|]. split; [exact Hex|].
    intros payload Hp. destruct (Hret payload Hp) as [response [Hfetch Hok]].
    exists response. split; [|exact Hok].
    rewrite <- Hfetch. f_equal. lia. }
  assert (Hdone : forall r,
             (forall message, r <> AttemptsExhausted message) ->
             (forall payload, r = Returned payload ->
                exists response,
                  fetch attempt = FetchResolved response
                  /\ responseOk response = true /\ body response = payload) ->
             let run := afterFetch (finished r) in
             (fetches run <= S remaining)%nat
             /\ fetches run = S (List.length (sleeps run))
             /\ Forall (fun ms => 0 <= ms <= MAX_RETRY_DELAY_MS)%Z (sleeps run)
             /\ (forall message, result run <> AttemptsExhausted message)
             /\ (forall payload, result run = Returned payload ->
                 exists response,
                   fetch (attempt + Z.of_nat (fetches run) - 1)%Z
                     = FetchResolved response
                   /\ responseOk response = true
                   /\ body response = payload)).
  { intros r Hr Hpayload. cbv zeta.
    cbn [afterFetch finished fetches sleeps result List.length].
    split; [lia|]. split; [reflexivity|]. split; [constructor|].
    split; [exact Hr|].
    intros payload Hp. destruct (Hpayload payload Hp) as [response H].
    exists response. replace (attempt + Z.of_nat 1 - 1)%Z with attempt by lia.
    exact H. }
  destruct (fetch attempt) as [err|response] eqn:Efetch.
  - destruct ((attempt <? MAX_REQUEST_ATTEMPTS)%Z
              && isRetryableTransportError err) eqn:Eretry.
    + apply andb_prop in Eretry as [Hlt _].
      apply Hstep; [exact Hlt | apply Hdelay].
    + apply Hdone; [discriminate | discriminate].
  - destruct (responseOk response) eqn:Eok.
    + apply Hdone; [discriminate|].
      intros payload [= <-]. now exists response.
    + destruct ((attempt <? MAX_REQUEST_ATTEMPTS)%Z
                && isRetryableStatus (status response)) eqn:Eretry.
      * apply andb_prop in Eretry as [Hlt _].
        apply Hstep; [exact Hlt | apply Hdelay].
      * apply Hdone; [discriminate | discriminate].
Qed.

Lemma getApiKey_some (env : Environment) (keyEnv key : string) :
  getApiKey env keyEnv = Some key -> key <> "" /\ trim key = key.
Proof.
  assert (Husable : forall v : option string,
             (if falsyString v then None
              else if falsyString (Some (trim (nullish v "")))
                   then None else Some (trim (nullish v ""))) = Some key ->
             key <> "" /\ trim key = key).
  { intros v. destruct (falsyString v); [discriminate|].
    destruct (trim (nullish v "")) as [|c rest] eqn:E; [discriminate|].
    cbn [falsyString]. intros [= <-]. split; [discriminate|].
    rewrite <- E. apply trim_idem. }
  unfold getApiKey. cbv zeta.
  match goal with
  | |- match ?first with _ => _ end = _ -> _ =>
      destruct first as [found|] eqn:Efirst
  end.
  - intros [= ->]. exact (Husable _ Efirst).
  - destruct (negb _); [|discriminate]. apply Husable.
Qed.

Lemma requestJson_loop platform env clock fetch keyEnv method pathname
    (requireAuth : bool) :
  requestJson platform env clock fetch keyEnv method pathname requireAuth
  = finished (MissingApiKey
                ("Missing msgvault API key. Set " ++ keyEnv
                 ++ " in the gateway environment."))
    /\ requireAuth = true /\ getApiKey env keyEnv = None
  \/ requestJson platform env clock fetch keyEnv method pathname requireAuth
     = requestAttempts platform clock fetch keyEnv method pathname 3 1
     /\ (requireAuth = true -> getApiKey env keyEnv <> None).
Proof.
  unfold requestJson.
  destruct requireAuth; cbn [andb].
  - destruct (getApiKey env keyEnv) as [[|c key]|] eqn:E; cbn [falsyString].
    + apply getApiKey_some in E. now destruct E.
    + right. split; [reflexivity | discriminate].
    + left. now repeat split.
  - right. split; [reflexivity | discriminate].
Qed.

(** A call of [requestJson] fetches at most [MAX_REQUEST_ATTEMPTS] times,
    sleeps once between two fetches and never after the last, each time for
    at most [MAX_RETRY_DELAY_MS], so it waits 4 seconds at most in all. *)
Theorem requestJson_bounded_effort
    (platform : Platform) (env : Environment) (clock : Z -> Z)
    (fetch : Z -> FetchOutcome) (keyEnv method pathname : string)
    (requireAuth : bool) :
  let run :=
    requestJson platform env clock fetch keyEnv method pathname requireAuth in
  (Z.of_nat (fetches run) <= MAX_REQUEST_ATTEMPTS)%Z
  /\ List.length (sleeps run) = pred (fetches run)
  /\ Forall (fun ms => 0 <= ms <= MAX_RETRY_DELAY_MS)%Z (sleeps run)
  /\ (List.fold_right Z.add 0 (sleeps run) <= 4000)%Z.
Proof.
  cbv zeta.
  assert (Hsum : forall delays : list Z,
             (List.length delays <= 2)%nat ->
             Forall (fun ms => 0 <= ms <= MAX_RETRY_DELAY_MS)%Z delays ->
             (List.fold_right Z.add 0 delays <= 4000)%Z).
  { intros delays Hlen Hall. unfold MAX_RETRY_DELAY_MS in Hall.
    destruct delays as [|a [|b [|c rest]]]; cbn in Hlen |- *; try lia.
    - inversion Hall; subst. lia.
    - inversion Hall as [|? ? Ha Hrest]; subst.
      inversion Hrest; subst. lia. }
  destruct (requestJson_loop platform env clock fetch keyEnv method pathname
              requireAuth) as [[-> _] | [-> _]].
  - cbn. unfold MAX_REQUEST_ATTEMPTS. repeat split; try lia. constructor.
  - destruct (requestAttempts_invariant platform clock fetch keyEnv method
                pathname 3 1) as (Hf & Hs & Hall & _); [lia | reflexivity|].
    unfold MAX_REQUEST_ATTEMPTS. rewrite Hs in *. cbn [pred].
    split; [lia|]. split; [reflexivity|]. split; [exact Hall|].
    apply Hsum; [lia | exact Hall].
Qed.

(** The [throw] behind the retry loop of [requestJson] is never reached:
    the last iteration always returns or throws by itself. *)
Theorem requestJson_never_exhausts_attempts
    (platform : Platform) (env : Environment) (clock : Z -> Z)
    (fetch : Z -> FetchOutcome) (keyEnv method pathname : string)
    (requireAuth : bool) (message : string) :
  result (requestJson platform env clock fetch keyEnv method pathname
            requireAuth)
  <> AttemptsExhausted message.
Proof.
  destruct (requestJson_loop platform env clock fetch keyEnv method pathname
              requireAuth) as [[-> _] | [-> _]].
  - discriminate.
  - destruct (requestAttempts_invariant platform clock fetch keyEnv method
                pathname 3 1) as (_ & _ & _ & Hex & _); [lia | reflexivity|].
    apply Hex.
Qed.

(** A payload that [requestJson] returns is the body of the response to its
    last [fetch], that response was ok (a 2xx status), and, when
    authentication is required, an API key was found in the environment. *)
Theorem requestJson_returns_ok_body_only
    (platform : Platform) (env : Environment) (clock : Z -> Z)
    (fetch : Z -> FetchOutcome) (keyEnv method pathname : string)
    (requireAuth : bool) (payload : JsValue) :
  let run :=
    requestJson platform env clock fetch keyEnv method pathname requireAuth in
  result run = Returned payload ->
  (exists response,
      fetch (Z.of_nat (fetches run)) = FetchResolved response
      /\ (200 <= status response <= 299)%Z
      /\ body response = payload)
  /\ (requireAuth = true -> getApiKey env keyEnv <> None).
Proof.
  cbv zeta.
  destruct (requestJson_loop platform env clock fetch keyEnv method pathname
              requireAuth) as [[-> _] | [-> Hkey]].
  - discriminate.
  - intros Hreturned. split; [|exact Hkey].
    destruct (requestAttempts_invariant platform clock fetch keyEnv method
                pathname 3 1) as (_ & _ & _ & _ & Hret);
      [lia | reflexivity|].
    destruct (Hret payload Hreturned) as [response (Hfetch & Hok & Hbody)].
    exists response. split.
    + rewrite <- Hfetch. f_equal. lia.
    + split; [|exact Hbody].
      unfold responseOk in Hok. apply andb_prop in Hok as [Hlo Hhi].
      apply Z.leb_le in Hlo. apply Z.leb_le in Hhi. lia.
Qed.

(* ================================================================= *)
(** ** The domain-search tool *)

Lemma nonEmpty_true (s : string) : nonEmpty s = true <-> s <> "".
Proof.
  destruct s; cbn; split; intros H; try reflexivity; try discriminate.
  now contradiction H.
Qed.

Lemma trimmed_entries (raw : list string) :
  Forall (fun s => s <> "" /\ trim s = s)
    (List.filter nonEmpty (List.map trim raw)).
Proof.
  apply Forall_forall. intros s Hin.
  apply List.filter_In in Hin as [Hin Hne].
  apply List.in_map_iff in Hin as [original [<- _]].
  split; [now apply nonEmpty_true | apply trim_idem].
Qed.

(** When [readStringArray] returns an array it is never empty, and every
    entry is a non-empty string without surrounding whitespace. *)
Theorem readStringArray_entries_usable
    (params : list (string * JsValue)) (key : string)
    (values : list string) :
  readStringArray params key = Some values ->
  values <> [] /\ Forall (fun s => s <> "" /\ trim s = s) values.
Proof.
  unfold readStringArray.
  destruct (lookupField params key) as [| | | |raw|raw|]; try discriminate.
  - cbv zeta. destruct (trim raw) as [|c rest] eqn:E; [discriminate|].
    cbn [falsyString]. intros [= <-]. split; [discriminate|].
    constructor; [|constructor]. split; [discriminate|].
    rewrite <- E. apply trim_idem.
  - cbv zeta. pose proof (trimmed_entries (stringEntries raw)) as Hall.
    destruct (List.filter nonEmpty (List.map trim (stringEntries raw)));
      [discriminate|].
    intros [= <-]. split; [discriminate | exact Hall].
Qed.

Lemma splitOn_pieces (sep : ascii) (s : string) :
  Forall (fun piece => anyUnit (Ascii.eqb sep) piece = false) (splitOn sep s)
  /\ (toLowerCase s = s ->
      Forall (fun piece => toLowerCase piece = piece) (splitOn sep s))
  /\ splitOn sep s <> [].
Proof.
  induction s as [|c rest (IHsep & IHlow & IHne)]; cbn [splitOn].
  - repeat split; try discriminate; repeat constructor.
  - destruct (c =? sep)%char eqn:E.
    + split; [now constructor|]. split; [|discriminate].
      intros [= _ Hrest]. constructor; [reflexivity | now apply IHlow].
    + destruct (splitOn sep rest) as [|piece pieces]; [contradiction|].
      split; [|split; [|discriminate]].
      * inversion IHsep as [|? ? Hpiece Hpieces]; subst.
        constructor; [|exact Hpieces].
        cbn [anyUnit]. rewrite Hpiece, Ascii.eqb_sym, E. reflexivity.
      * intros [= Hc Hrest]. specialize (IHlow Hrest).
        inversion IHlow as [|? ? Hpiece Hpieces]; subst.
        constructor; [|exact Hpieces].
        cbn [toLowerCase]. now rewrite Hc, Hpiece.
Qed.

Lemma lastTwo_In (parts : list string) (sld top : string) :
  lastTwo parts = Some (sld, top) -> In sld parts /\ In top parts.
Proof.
  induction parts as [|a [|b [|c rest]] IH]; cbn [lastTwo]; try discriminate.
  - intros [= <- <-]. cbn. auto.
  - intros H. destruct (IH H) as [Hs Ht]. split; now right.
Qed.

Lemma parseApexDomainOrName_labels urlHostname (value : string) :
  let parsed := parseApexDomainOrName urlHostname value in
  toLowerCase (name parsed) = name parsed
  /\ (forall top, tld parsed = Some top ->
        name parsed <> "" /\ top <> ""
        /\ anyUnit isDot (name parsed) = false /\ anyUnit isDot top = false
        /\ toLowerCase top = top).
Proof.
  cbv zeta. unfold parseApexDomainOrName.
  set (host := toLowerCase (extractHostname urlHostname value)).
  assert (Hhost : toLowerCase host = host) by apply toLowerCase_idem.
  destruct (splitOn_pieces "." host) as (Hsep & Hlow & _).
  specialize (Hlow Hhost).
  destruct (lastTwo (List.filter nonEmpty (splitOn "." host)))
    as [[sld top]|] eqn:E; cbn [name tld].
  - apply lastTwo_In in E as [Hsld Htop].
    apply List.filter_In in Hsld as [Hsld Hsldne].
    apply List.filter_In in Htop as [Htop Htopne].
    rewrite Forall_forall in Hsep, Hlow.
    split; [now apply Hlow|].
    intros top' [= <-].
    split; [now apply nonEmpty_true|]. split; [now apply nonEmpty_true|].
    split; [exact (Hsep _ Hsld)|]. split; [exact (Hsep _ Htop)|].
    now apply Hlow.
  - split; [exact Hhost | discriminate].
Qed.

(** When [parseApexDomainOrName] finds a TLD, the name and the TLD it
    returns are single labels: non-empty, without a dot and in lower case;
    the name is in lower case in every case. *)
Theorem parseApexDomainOrName_returns_labels
    (urlHostname : string -> option string) (value : string) :
  let parsed := parseApexDomainOrName urlHostname value in
  toLowerCase (name parsed) = name parsed
  /\ (forall top, tld parsed = Some top ->
        name parsed <> "" /\ top <> ""
        /\ anyUnit isDot (name parsed) = false /\ anyUnit isDot top = false
        /\ toLowerCase top = top).
Proof. apply parseApexDomainOrName_labels. Qed.





Lemma setAdd_In (set : list string) (value x : string) :
  In x (setAdd set value) <-> In x set \/ x = value.
Proof.
  unfold setAdd. destruct (List.existsb (String.eqb value) set) eqn:E.
  - split; [auto|]. intros [H | ->]; [exact H|].
    apply List.existsb_exists in E as [y [Hy Heq]].
    apply String.eqb_eq in Heq. now subst.
  - rewrite List.in_app_iff. cbn. split.
    + intros [H | [<- | []]]; auto.
    + intros [H | ->]; auto.
Qed.

Lemma collectBulkDomains_spec urlHostname (rawDomains : list string)
    (names inferred : list string) :
  let collected := collectBulkDomains urlHostname rawDomains names inferred in
  fst collected
  = (names ++ List.map (fun raw => name (parseApexDomainOrName urlHostname raw))
                rawDomains)%list
  /\ (forall t, In t inferred -> In t (snd collected))
  /\ (forall raw top,
        In raw rawDomains ->
        tld (parseApexDomainOrName urlHostname raw) = Some top ->
        In (normalizeTld top) (snd collected)).
Proof.
  cbv zeta. revert names inferred.
  induction rawDomains as [|raw rest IH]; intros names inferred;
    cbn [collectBulkDomains List.map].
  - rewrite List.app_nil_r. cbn. repeat split; auto. intros ? ? [].
  - cbv zeta.
    match goal with
    | |- context [collectBulkDomains _ _ ?names' ?inferred'] =>
        destruct (IH names' inferred') as (Hnames & Hkeep & Hrest)
    end.
    split; [|split].
    + rewrite Hnames, <- List.app_assoc. reflexivity.
    + intros t Hin. apply Hkeep.
      destruct (falsyString _); [exact Hin|]. apply setAdd_In. now left.
    + intros raw' top [<- | Hin] Htop.
      * apply Hkeep. rewrite Htop.
        destruct (parseApexDomainOrName_labels urlHostname raw) as [_ Hlabel].
        destruct (Hlabel top Htop) as (_ & Hne & _).
        destruct top; [contradiction|]. cbn [falsyString nullish].
        apply setAdd_In. now right.
      * now apply Hrest with (raw := raw').
Qed.

Lemma execute_bulk_search urlHostname params (input : BulkSearchInput) :
  execute urlHostname params = Done (ExecuteBulkSearch input) ->
  bulkSearchInput urlHostname params = Done input.
Proof.
  unfold execute.
  destruct (readString params "action" true) as [action|]; [|discriminate].
  cbv zeta.
  destruct (nullish action "" =? "search_domain").
  { destruct (searchDomainInput urlHostname params); discriminate. }
  destruct (nullish action "" =? "bulk_search").
  { destruct (bulkSearchInput urlHostname params); cbn [mapOutcome];
      [now intros [= ->] | discriminate]. }
  destruct (nullish action "" =? "suggest_domains_smart").
  { destruct (suggestDomainsInput params); discriminate. }
  destruct (nullish action "" =? "tld_info").
  { destruct (readString params "tld" true) as [[tldRaw|]|]; discriminate. }
  destruct (nullish action "" =? "check_socials").
  { destruct (readString params "name" true); discriminate. }
  discriminate.
Qed.

(** A [bulk_search] call that reaches the implementation carries one name
    per requested domain, in order, and a single TLD that every requested
    domain naming a TLD agrees with. *)
Theorem bulk_search_passes_single_tld
    (urlHostname : string -> option string)
    (params : list (string * JsValue)) (rawDomains : list string)
    (input : BulkSearchInput) :
  readStringArray params "domains" = Some rawDomains ->
  execute urlHostname params = Done (ExecuteBulkSearch input) ->
  domains input
  = List.map (fun raw => name (parseApexDomainOrName urlHostname raw))
      rawDomains
  /\ (forall raw top,
        In raw rawDomains ->
        tld (parseApexDomainOrName urlHostname raw) = Some top ->
        bulkTld input = Some (normalizeTld top)).
Proof.
  intros Hdomains Hexecute. apply execute_bulk_search in Hexecute.
  revert Hexecute. unfold bulkSearchInput. rewrite Hdomains.
  destruct (collectBulkDomains_spec urlHostname rawDomains [] [])
    as (Hnames & _ & Hinferred).
  destruct (collectBulkDomains urlHostname rawDomains [] [])
    as [normalizedDomains inferredTlds].
  cbn [fst snd] in Hnames, Hinferred.
  destruct (1 <? List.length inferredTlds)%nat eqn:Esize; [discriminate|].
  apply Nat.ltb_ge in Esize.
  destruct (readString params "tld" false) as [tldParamRaw|]; [|discriminate].
  cbv zeta.
  destruct (negb _ && negb _ && negb _); [discriminate|].
  destruct (readString params "registrar" false); [|discriminate].
  intros [= <-]. cbn [domains bulkTld].
  split; [exact Hnames|].
  intros raw top Hin Htop. specialize (Hinferred raw top Hin Htop).
  destruct inferredTlds as [|only [|another rest]]; cbn in Esize, Hinferred.
  - contradiction.
  - destruct Hinferred as [<- | []]. reflexivity.
  - lia.
Qed.

Lemma anyUnit_takeUntil_stop (stop : ascii -> bool) (s : string) :
  anyUnit stop (takeUntil stop s) = false.
Proof.
  induction s as [|c rest IH]; cbn [takeUntil]; [reflexivity|].
  destruct (stop c) eqn:E; [reflexivity|]. cbn [anyUnit]. now rewrite E.
Qed.

Lemma anyUnit_takeUntil (p stop : ascii -> bool) (s : string) :
  anyUnit p s = false -> anyUnit p (takeUntil stop s) = false.
Proof.
  induction s as [|c rest IH]; cbn [takeUntil anyUnit]; [reflexivity|].
  intros H. apply orb_false_iff in H as [Hc Hrest].
  destruct (stop c); [reflexivity|]. cbn [anyUnit]. now rewrite Hc, IH.
Qed.

Lemma anyUnit_dropFinalDot (p : ascii -> bool) (s : string) :
  anyUnit p s = false -> anyUnit p (dropFinalDot s) = false.
Proof.
  induction s as [|c rest IH]; [reflexivity|].
  intros H. cbn [anyUnit] in H. apply orb_false_iff in H as [Hc Hrest].
  destruct rest as [|d rest'].
  - cbn [dropFinalDot]. destruct (isDot c); [reflexivity|].
    cbn [anyUnit]. now rewrite Hc.
  - change (dropFinalDot (String c (String d rest')))
      with (String c (dropFinalDot (String d rest'))).
    cbn [anyUnit]. now rewrite Hc, IH.
Qed.

Lemma anyUnit_either (p q : ascii -> bool) (s : string) :
  anyUnit p s = false -> anyUnit q s = false ->
  anyUnit (fun c => p c || q c) s = false.
Proof.
  induction s as [|c rest IH]; cbn [anyUnit]; [reflexivity|].
  intros Hp Hq.
  apply orb_false_iff in Hp as [Hpc Hprest].
  apply orb_false_iff in Hq as [Hqc Hqrest].
  now rewrite Hpc, Hqc, IH.
Qed.

(** When the value does not look like a URL, or the URL parser rejects it,
    the host name [extractHostname] falls back to holds no path, query,
    fragment or port separator. *)
Theorem extractHostname_best_effort_has_no_separator
    (urlHostname : string -> option string) (value : string) :
  looksLikeUrl (trim value) = false \/ urlHostname (trim value) = None ->
  anyUnit (fun c => isPathStart c || isColon c)
    (extractHostname urlHostname value) = false.
Proof.
  intros Hfallback. unfold extractHostname. cbv zeta.
  destruct (falsyString (Some (trim value))); [reflexivity|].
  assert (Hclean :
            anyUnit (fun c => isPathStart c || isColon c)
              (dropFinalDot
                 (takeUntil isColon (takeUntil isPathStart (trim value))))
            = false).
  { apply anyUnit_either; apply anyUnit_dropFinalDot.
    - apply anyUnit_takeUntil, anyUnit_takeUntil_stop.
    - apply anyUnit_takeUntil_stop. }
  destruct (looksLikeUrl (trim value)) eqn:Eurl; [|exact Hclean].
  destruct Hfallback as [Hno | Hthrows]; [discriminate|].
  now rewrite Hthrows.
Qed.

(* ================================================================= *)
(** ** The compatibility server *)

(** With API keys configured, a request passes the key check only if it
    carries an [authorization] or [x-api-key] header whose token is
    non-empty and is one of the configured keys. *)
Theorem key_check_requires_configured_key
    (env : Environment) (headers : list (string * JsValue)) :
  parseAuthKeys env <> [] ->
  passesKeyCheck (parseAuthKeys env) headers = true ->
  readAuthToken headers <> ""
  /\ In (readAuthToken headers) (parseAuthKeys env)
  /\ (stringValue (lookupField headers "authorization") <> None
      \/ stringValue (lookupField headers "x-api-key") <> None).
Proof.
  intros Hconfigured Hpasses.
  assert (Hin : In (readAuthToken headers) (parseAuthKeys env)).
  { unfold passesKeyCheck in Hpasses.
    destruct (parseAuthKeys env) as [|key keys]; [contradiction|].
    apply List.existsb_exists in Hpasses as [found [Hfound Heq]].
    apply String.eqb_eq in Heq. now rewrite Heq. }
  assert (Hne : readAuthToken headers <> "").
  { unfold parseAuthKeys in Hin. cbv zeta in Hin.
    apply List.filter_In in Hin as [_ Hne]. now apply nonEmpty_true. }
  split; [exact Hne|]. split; [exact Hin|].
  unfold readAuthToken in Hne. cbv zeta in Hne.
  destruct (stringValue (lookupField headers "authorization"));
    [left; discriminate|].
  destruct (stringValue (lookupField headers "x-api-key"));
    [right; discriminate|].
  now contradiction Hne.
Qed.

(* ================================================================= *)
(** ** The further theorems on the inputs of the test suites *)

Lemma bare_main_alias_unless_global_witness :
  isMainSessionAlias sampleNormalizeAgentId sampleNormalizeMainKey
    (Some " MAIN ") (Present explicitDefaults) = Normal true
  /\ isMainSessionAlias sampleNormalizeAgentId sampleNormalizeMainKey
       (Some "main") (Present globalDefaults) = Normal false.
Proof.
  split.
  - exact (bare_main_alias_unless_global
             sampleNormalizeAgentId sampleNormalizeMainKey
             " MAIN " (Present explicitDefaults)
             "agent:denver-move:main-chat" eq_refl eq_refl).
  - exact (bare_main_alias_unless_global
             sampleNormalizeAgentId sampleNormalizeMainKey
             "main" (Present globalDefaults) "global" eq_refl eq_refl).
Defined.

Lemma resolved_key_has_no_surrounding_whitespace_witness :
  trimStart "agent:denver-move:main-chat" = "agent:denver-move:main-chat"
  /\ trimEnd "agent:denver-move:main-chat" = "agent:denver-move:main-chat".
Proof.
  exact (resolved_key_has_no_surrounding_whitespace
           sampleNormalizeAgentId sampleNormalizeMainKey
           (Present paddedDefaults) "agent:denver-move:main-chat"
           eq_refl eq_refl).
Defined.

Lemma resolved_key_resolves_to_itself_witness :
  resolveSnapshotMainSessionKey sampleNormalizeAgentId sampleNormalizeMainKey
    (Present {| defaultAgentId := None; mainKey := None;
                mainSessionKey := Some "agent:denver-move:heartbeat";
                scope := Some "global" |})
  = Normal (Some "agent:denver-move:heartbeat").
Proof.
  exact (resolved_key_resolves_to_itself
           sampleNormalizeAgentId sampleNormalizeMainKey
           (Present derivedDefaults) "agent:denver-move:heartbeat"
           None None (Some "global") eq_refl eq_refl).
Defined.

Lemma normalizePositiveInt_range_witness :
  (1 <= normalizePositiveInt (VString "7") 20 100 <= 100)%Z
  /\ normalizePositiveInt (VNumber (Finite (QArith_base.inject_Z 50))) 20 100
     = 50%Z.
Proof.
  split.
  - exact (proj1 (normalizePositiveInt_range (VString "7") 20 100
                    ltac:(lia))).
  - exact (proj2 (normalizePositiveInt_range (VString "7") 20 100
                    ltac:(lia)) 50%Z ltac:(lia)).
Defined.

Lemma computeRetryDelayMs_backoff_monotone_witness :
  (computeRetryDelayMs testPlatform 0 None 2
   <= computeRetryDelayMs testPlatform 0 None 3)%Z
  /\ computeRetryDelayMs testPlatform 0 None 2 = 400%Z.
Proof.
  split.
  - exact (proj1 (computeRetryDelayMs_backoff_monotone testPlatform 0 2 3
                    ltac:(lia))).
  - exact (proj2 (computeRetryDelayMs_backoff_monotone testPlatform 0 2 3
                    ltac:(lia)) ltac:(lia)).
Defined.

Lemma requestJson_returns_ok_body_only_witness :
  (exists response,
      rateLimitedThenOk 2 = FetchResolved response
      /\ (200 <= status response <= 299)%Z
      /\ body response
         = VObject [("total", VNumber (Finite (QArith_base.inject_Z 1)))])
  /\ (true = true -> getApiKey testEnvironment "MSGVAULT_API_KEY" <> None).
Proof.
  exact (requestJson_returns_ok_body_only testPlatform testEnvironment
           (fun _ => 0%Z) rateLimitedThenOk
           "MSGVAULT_API_KEY" "GET" "/api/v1/search" true
           (VObject [("total", VNumber (Finite (QArith_base.inject_Z 1)))])
           eq_refl).
Defined.

Lemma readStringArray_entries_usable_witness :
  [".COM"; "IO"] <> []
  /\ Forall (fun s => s <> "" /\ trim s = s) [".COM"; "IO"].
Proof.
  exact (readStringArray_entries_usable searchDomainParams "tlds"
           [".COM"; "IO"] eq_refl).
Defined.


Lemma bulk_search_passes_single_tld_witness :
  ["a"; "b"]
  = List.map (fun raw => name (parseApexDomainOrName rejectingUrlParser raw))
      ["a.com"; "b.com"]
  /\ Some "com" = Some (normalizeTld "com").
Proof.
  destruct (bulk_search_passes_single_tld rejectingUrlParser bulkSearchParams
              ["a.com"; "b.com"]
              {| domains := ["a"; "b"]; bulkTld := Some "com";
                 registrar := None |}
              eq_refl eq_refl) as (Hnames & Htld).
  split; [exact Hnames|].
  exact (Htld "b.com" "com" (or_intror (or_introl eq_refl)) eq_refl).
Defined.

Lemma extractHostname_best_effort_has_no_separator_witness :
  anyUnit (fun c => isPathStart c || isColon c)
    (extractHostname rejectingUrlParser " https://example.com:8443/a?b#c ")
  = false.
Proof.
  exact (extractHostname_best_effort_has_no_separator rejectingUrlParser
           " https://example.com:8443/a?b#c " (or_intror eq_refl)).
Defined.

Lemma key_check_requires_configured_key_witness :
  readAuthToken bearerBetaHeaders <> ""
  /\ In (readAuthToken bearerBetaHeaders) (parseAuthKeys twoKeysEnvironment)
  /\ (stringValue (lookupField bearerBetaHeaders "authorization") <> None
      \/ stringValue (lookupField bearerBetaHeaders "x-api-key") <> None).
Proof.
  apply (key_check_requires_configured_key twoKeysEnvironment
           bearerBetaHeaders).
  - discriminate.
  - reflexivity.
Defined.
